(** * FastCast: the channel facade of MultiScreenPlayer/js/fastcast.js

    A shallow embedding of the FastCast module (an API over the Samsung
    MultiScreen 2.0 channel) and the properties of its admission policy,
    its protocol-message dispatcher and its outbound helpers.

    The module is a closure over a handful of mutable variables.  They
    become one record [state]; every function of the module becomes a
    computation in a small monad that threads this record, may throw a
    JavaScript exception, and records the calls it makes to its
    collaborators (the SDK channel, the TV platform, the document, the
    console and the callbacks of the hosting application) in a trace.

    What the collaborators do is not part of the module.  The model takes
    it as follows:
    - a call to the channel, the platform, the document or the console
      returns normally and is recorded in the trace;
    - [channel.clients] and [channel.isConnected] are read from the
      channel object held in the state, which the SDK maintains;
    - [channel.emit] is recorded; the listeners it runs are transitions
      of their own ([step]), and [onChannelConnect_listening] is the run
      of [onChannelConnect] with the module's own listener inside;
    - a callback of the hosting application is a function of the client
      that answers a data value; it does not throw and does not call
      back into the module;
    - [JSON.parse], [JSON.stringify] and the platform getters are fields
      of a [Runtime] record the module is parameterised by. *)

From Stdlib Require Import ZArith List String Ascii Bool Lia DecimalString.
From Stdlib Require Decimal DecimalPos.
Import ListNotations.

Local Open Scope string_scope.
Local Open Scope Z_scope.
Set Warnings "-register-all".

(** ** JavaScript values *)

Module JS.

(** Numbers.  Only the integer-valued doubles and NaN are modelled;
    fractions, infinities and the sign of zero are outside the model.
    Conversion to a string and addition are those of JavaScript on the
    safe integers ([safeInteger] below); beyond them a double rounds and
    prints its shortest digits, which the model does not follow. *)
Inductive number :=
| NaN
| Num (z : Z).

(** [Number.isSafeInteger]: below 2^53 in magnitude every integer is a
    double, is printed with all its decimal digits, and has an exact
    successor. *)
Definition safeInteger (z : Z) : Prop := - 2 ^ 53 < z < 2 ^ 53.

(** JSON-shaped data: what [JSON.parse] produces and what the channel
    delivers.  An object is the list of its own properties, in order. *)
Inductive value :=
| VUndefined
| VNull
| VBool (b : bool)
| VNum (n : number)
| VStr (s : string)
| VArr (items : list value)
| VObj (fields : list (string * value)).

(** What may be handed to the public operations: data, a function of the
    hosting application, or a DOM-like dispatch target. *)
Inductive jsval :=
| Data (v : value)
| Func (f : nat)
| Element (e : nat).

(** What [tvKeys[name]] may give: a value, or a member that [tvKeys]
    inherits from [Object.prototype]. *)
Inductive keyval :=
| KeyValue (v : value)
| KeyInherited (name : string).

Definition typeof (v : value) : string :=
  match v with
  | VUndefined => "undefined"
  | VNull => "object"
  | VBool _ => "boolean"
  | VNum _ => "number"
  | VStr _ => "string"
  | VArr _ => "object"
  | VObj _ => "object"
  end.

Definition typeofJ (v : jsval) : string :=
  match v with
  | Data d => typeof d
  | Func _ => "function"
  | Element _ => "object"
  end.

(** ToBoolean *)
Definition truthy (v : value) : bool :=
  match v with
  | VUndefined | VNull => false
  | VBool b => b
  | VNum NaN => false
  | VNum (Num z) => negb (z =? 0)
  | VStr s => negb (String.eqb s "")
  | VArr _ | VObj _ => true
  end.

Definition truthyJ (v : jsval) : bool :=
  match v with
  | Data d => truthy d
  | _ => true
  end.

Definition truthyK (k : keyval) : bool :=
  match k with
  | KeyValue d => truthy d
  | KeyInherited _ => true
  end.

(** Own-property lookup in an object literal. *)
Fixpoint assoc {A : Type} (k : string) (l : list (string * A)) : option A :=
  match l with
  | [] => None
  | (k', a) :: r => if String.eqb k k' then Some a else assoc k r
  end.

(** [o[k] = a]: overwrite the property in place, or add it at the end. *)
Fixpoint assoc_set {A : Type} (k : string) (a : A) (l : list (string * A))
  : list (string * A) :=
  match l with
  | [] => [(k, a)]
  | (k', a') :: r =>
      if String.eqb k k' then (k, a) :: r else (k', a') :: assoc_set k a r
  end.

(** [v.k] for the property names the module reads from a payload
    ([keycode], [value], [position], [videoId], [data], [name]): none of
    them is defined by a built-in prototype, so the lookup is among own
    properties and yields [undefined] on a primitive or an array.
    [None] is the TypeError of reading a property of [null] or
    [undefined]. *)
Definition getProp (v : value) (k : string) : option value :=
  match v with
  | VUndefined | VNull => None
  | VObj fields =>
      match assoc k fields with
      | Some x => Some x
      | None => Some VUndefined
      end
  | _ => Some VUndefined
  end.

(** Number::toString for an integer: its decimal digits, as JavaScript
    prints a safe integer.  (A larger double is printed with its shortest
    round-tripping digits, in exponent form from 1e21 on.) *)
Definition Z_to_string (z : Z) : string := NilZero.string_of_int (Z.to_int z).

Definition number_to_string (n : number) : string :=
  match n with
  | NaN => "NaN"
  | Num z => Z_to_string z
  end.

Fixpoint join (sep : string) (l : list string) : string :=
  match l with
  | [] => ""
  | [s] => s
  | s :: r => s ++ sep ++ join sep r
  end.

(** ToString.  An object converts through [Object.prototype.toString]
    unless it has an own [toString] property; data is never callable, so
    such an object cannot be converted and ToString throws a TypeError
    ([None]).  An array joins the conversions of its items, [null] and
    [undefined] items giving the empty string. *)
Fixpoint toString (v : value) : option string :=
  match v with
  | VUndefined => Some "undefined"
  | VNull => Some "null"
  | VBool true => Some "true"
  | VBool false => Some "false"
  | VNum n => Some (number_to_string n)
  | VStr s => Some s
  | VArr items =>
      let fix items_to_strings (l : list value) : option (list string) :=
        match l with
        | [] => Some []
        | x :: r =>
            match (match x with
                   | VUndefined | VNull => Some ""
                   | _ => toString x
                   end), items_to_strings r with
            | Some s, Some ss => Some (s :: ss)
            | _, _ => None
            end
        end in
      match items_to_strings items with
      | Some ss => Some (join "," ss)
      | None => None
      end
  | VObj fields =>
      match assoc "toString" fields with
      | Some _ => None
      | None => Some "[object Object]"
      end
  end.

(** *** parseInt(string, 10)

    Leading white space is skipped, then an optional sign is read, then
    the longest run of decimal digits; with no digit the result is NaN.
    A string is a sequence of code units below 256 here; among those the
    WhiteSpace and LineTerminator characters are 9 to 13, the space and
    the no-break space (160).  The digits are read as the integer they
    denote, which is what JavaScript returns while that integer is
    safe. *)

Definition isWhiteSpace (c : ascii) : bool :=
  let n := nat_of_ascii c in
  ((9 <=? n) && (n <=? 13))%nat || (n =? 32)%nat || (n =? 160)%nat.

Fixpoint skipWhiteSpace (s : string) : string :=
  match s with
  | String c r => if isWhiteSpace c then skipWhiteSpace r else s
  | EmptyString => s
  end.

Definition digitValue (c : ascii) : option Z :=
  let n := nat_of_ascii c in
  if ((48 <=? n) && (n <=? 57))%nat then Some (Z.of_nat (n - 48)) else None.

(** The longest prefix of decimal digits, read as a number; [acc] is
    [None] until a first digit has been seen. *)
Fixpoint readDigits (s : string) (acc : option Z) : option Z :=
  match s with
  | EmptyString => acc
  | String c r =>
      match digitValue c with
      | Some d =>
          readDigits r (Some (10 * (match acc with Some a => a | None => 0 end) + d))
      | None => acc
      end
  end.

Definition parseInt_string (s : string) : number :=
  let s := skipWhiteSpace s in
  let '(sign, s) :=
    match s with
    | String "-" r => (-1, r)
    | String "+" r => (1, r)
    | _ => (1, s)
    end in
  match readDigits s None with
  | Some n => Num (sign * n)
  | None => NaN
  end.

(** [parseInt(v, 10)]: ToString of the argument, then the integer prefix. *)
Definition parseInt (v : value) : option number :=
  match toString v with
  | Some s => Some (parseInt_string s)
  | None => None
  end.

(** Comparisons and arithmetic with NaN.  [num_add] is the sum of the
    integers, which is the double sum while the result is within 2^53. *)
Definition num_lt (a b : number) : bool :=
  match a, b with
  | Num x, Num y => x <? y
  | _, _ => false
  end.

Definition num_le (a b : number) : bool :=
  match a, b with
  | Num x, Num y => x <=? y
  | _, _ => false
  end.

Definition num_add (a b : number) : number :=
  match a, b with
  | Num x, Num y => Num (x + y)
  | _, _ => NaN
  end.

Definition num_abs (a : number) : number :=
  match a with
  | Num x => Num (Z.abs x)
  | NaN => NaN
  end.

Definition isNaN (a : number) : bool :=
  match a with
  | NaN => true
  | Num _ => false
  end.

(** [Array.prototype.indexOf] on an array of strings: the first index
    holding [x], or -1. *)
Fixpoint indexOf (l : list string) (x : string) : Z :=
  match l with
  | [] => -1
  | y :: r =>
      if String.eqb y x then 0
      else let i := indexOf r x in if i <? 0 then -1 else i + 1
  end.

(** [l.splice(i, 1)] for an index [i] inside the array. *)
Fixpoint splice1 (l : list string) (i : nat) : list string :=
  match l, i with
  | [], _ => []
  | _ :: r, O => r
  | y :: r, S j => y :: splice1 r j
  end.

End JS.
Import JS.

(** ** The collaborators *)

(** A member of [channel.clients], as the SDK describes it. *)
Record client := {
  id : string;
  isHost : bool;
  attributes : value;
  connectTime : Z
}.

(** The SDK channel object, as far as the module reads it. *)
Record channelT := {
  clients : list client;
  isConnected : bool
}.

(** What the JavaScript runtime, the TV platform and the hosting
    application answer when the module asks them.  [JSON_parse] gives
    [None] where [JSON.parse] throws its SyntaxError. *)
Record Runtime := {
  JSON_parse : string -> option value;
  JSON_stringify : value -> string;
  msf_loaded : bool;
  getSupportedKeys : list (string * number);
  tvaudiocontrol_getVolume : number;
  tvaudiocontrol_isMute : bool;
  avplay_getState : value;
  avplay_getCurrentTime : value;
  avplay_getDuration : value;
  callback_result : nat -> client -> value
}.

(** The functions the module registers on the channel. *)
Inductive listener :=
| LDispatch (event : string)
| LOnClientConnect
| LOnClientDisconnect
| LOnConnect
| LOnDisconnect
| LUser (f : nat)
| LLogNoop (eventName : jsval).

(** Calls the module makes to its collaborators, in program order. *)
Inductive effect :=
| Publish (args : list jsval)
| ChannelOn (eventName : jsval) (l : listener)
| ChannelEmit (eventName : string) (c : client)
| ChannelConnect (options : jsval)
| ChannelDisconnect
| MsfLocal (chanName : string) (callback : jsval)
| AddVisibilityListener
| SetVolume (n : number)
| SetMute (b : bool)
| DocumentDispatch (type : string) (detail : option value)
| KeydownEvent (target : option nat) (keyCode : keyval)
| CallWithClient (f : nat) (c : client)
| CallNoArgs (f : nat)
| Console (level : string) (message : string).

(** ** The module's variables *)

Record state := {
  channel : option channelT;
  eventBus : jsval;
  tvKeys : list (string * number);
  videoId : value;
  clientCallbacks : list (string * jsval);
  maxClients : number;
  forbiddenClients : list string;
  allowingAllClients : bool;
  (* the two names the module assigns without declaring them *)
  global_keycode : option keyval;
  global_event : option (string * value)
}.

Definition set_channel (c : option channelT) (s : state) : state :=
  {| channel := c; eventBus := eventBus s; tvKeys := tvKeys s;
     videoId := videoId s; clientCallbacks := clientCallbacks s;
     maxClients := maxClients s; forbiddenClients := forbiddenClients s;
     allowingAllClients := allowingAllClients s;
     global_keycode := global_keycode s; global_event := global_event s |}.

Definition set_eventBus (e : jsval) (s : state) : state :=
  {| channel := channel s; eventBus := e; tvKeys := tvKeys s;
     videoId := videoId s; clientCallbacks := clientCallbacks s;
     maxClients := maxClients s; forbiddenClients := forbiddenClients s;
     allowingAllClients := allowingAllClients s;
     global_keycode := global_keycode s; global_event := global_event s |}.

Definition set_videoId (v : value) (s : state) : state :=
  {| channel := channel s; eventBus := eventBus s; tvKeys := tvKeys s;
     videoId := v; clientCallbacks := clientCallbacks s;
     maxClients := maxClients s; forbiddenClients := forbiddenClients s;
     allowingAllClients := allowingAllClients s;
     global_keycode := global_keycode s; global_event := global_event s |}.

Definition set_clientCallbacks (c : list (string * jsval)) (s : state) : state :=
  {| channel := channel s; eventBus := eventBus s; tvKeys := tvKeys s;
     videoId := videoId s; clientCallbacks := c;
     maxClients := maxClients s; forbiddenClients := forbiddenClients s;
     allowingAllClients := allowingAllClients s;
     global_keycode := global_keycode s; global_event := global_event s |}.

Definition set_maxClients (n : number) (s : state) : state :=
  {| channel := channel s; eventBus := eventBus s; tvKeys := tvKeys s;
     videoId := videoId s; clientCallbacks := clientCallbacks s;
     maxClients := n; forbiddenClients := forbiddenClients s;
     allowingAllClients := allowingAllClients s;
     global_keycode := global_keycode s; global_event := global_event s |}.

Definition set_forbiddenClients (l : list string) (s : state) : state :=
  {| channel := channel s; eventBus := eventBus s; tvKeys := tvKeys s;
     videoId := videoId s; clientCallbacks := clientCallbacks s;
     maxClients := maxClients s; forbiddenClients := l;
     allowingAllClients := allowingAllClients s;
     global_keycode := global_keycode s; global_event := global_event s |}.

Definition set_allowingAllClients (b : bool) (s : state) : state :=
  {| channel := channel s; eventBus := eventBus s; tvKeys := tvKeys s;
     videoId := videoId s; clientCallbacks := clientCallbacks s;
     maxClients := maxClients s; forbiddenClients := forbiddenClients s;
     allowingAllClients := b;
     global_keycode := global_keycode s; global_event := global_event s |}.

Definition set_global_keycode (k : option keyval) (s : state) : state :=
  {| channel := channel s; eventBus := eventBus s; tvKeys := tvKeys s;
     videoId := videoId s; clientCallbacks := clientCallbacks s;
     maxClients := maxClients s; forbiddenClients := forbiddenClients s;
     allowingAllClients := allowingAllClients s;
     global_keycode := k; global_event := global_event s |}.

Definition set_global_event (e : option (string * value)) (s : state) : state :=
  {| channel := channel s; eventBus := eventBus s; tvKeys := tvKeys s;
     videoId := videoId s; clientCallbacks := clientCallbacks s;
     maxClients := maxClients s; forbiddenClients := forbiddenClients s;
     allowingAllClients := allowingAllClients s;
     global_keycode := global_keycode s; global_event := e |}.

(** ** The monad: state, exceptions and a trace of effects *)

Inductive exn :=
| TypeError
| ReferenceError.

Inductive completion (A : Type) :=
| Normal (a : A)
| Throw (e : exn).
Arguments Normal {A} a.
Arguments Throw {A} e.

Record outcome (A : Type) := {
  result : completion A;
  final : state;
  trace : list effect
}.
Arguments result {A} o.
Arguments final {A} o.
Arguments trace {A} o.

Definition M (A : Type) : Type := state -> outcome A.

Definition ret {A} (a : A) : M A :=
  fun s => {| result := Normal a; final := s; trace := [] |}.

Definition bind {A B} (m : M A) (f : A -> M B) : M B :=
  fun s =>
    match m s with
    | {| result := Normal a; final := s1; trace := t1 |} =>
        match f a s1 with
        | {| result := r; final := s2; trace := t2 |} =>
            {| result := r; final := s2; trace := t1 ++ t2 |}
        end
    | {| result := Throw e; final := s1; trace := t1 |} =>
        {| result := Throw e; final := s1; trace := t1 |}
    end.

Definition throw {A} (e : exn) : M A :=
  fun s => {| result := Throw e; final := s; trace := [] |}.

Definition get : M state :=
  fun s => {| result := Normal s; final := s; trace := [] |}.

Definition modify (f : state -> state) : M unit :=
  fun s => {| result := Normal tt; final := f s; trace := [] |}.

Definition emit (e : effect) : M unit :=
  fun s => {| result := Normal tt; final := s; trace := [e] |}.

(** A partial primitive: [None] is a TypeError. *)
Definition orTypeError {A} (o : option A) : M A :=
  match o with
  | Some a => ret a
  | None => throw TypeError
  end.

Declare Scope js_scope.
Delimit Scope js_scope with js.
Notation "x <- m ;; k" := (bind m (fun x => k))
  (at level 61, m at next level, right associativity) : js_scope.
Notation "m ;; k" := (bind m (fun _ => k))
  (at level 61, right associativity) : js_scope.
Local Open Scope js_scope.

Fixpoint forEach {A} (l : list A) (f : A -> M unit) : M unit :=
  match l with
  | [] => ret tt
  | a :: r => f a ;; forEach r f
  end.

(** Reading [channel.m] or calling a method of [channel]: a TypeError
    while the handle is [null]. *)
Definition theChannel : M channelT :=
  s <- get ;; orTypeError (channel s).

(** ** The module *)

Section FastCast.

Variable rt : Runtime.

Definition ownName : string := "TV".

(** [errors]: the table of predefined errors. *)
Definition errors : list (string * Z) :=
  [ ("Not connected", 500);
    ("Seek failed", 500);
    ("No such stream", 404) ].

Definition error_NOT_CONNECTED : number := Num 0.
Definition error_SEEK_FAILED : number := Num 1.
Definition error_NO_SUCH_STREAM : number := Num 2.

(** [errors[type]] for a number [type]: [None] is [undefined]. *)
Definition errors_at (type : number) : option (string * Z) :=
  match type with
  | Num z => if z <? 0 then None else nth_error errors (Z.to_nat z)
  | NaN => None
  end.

(** [tvKeys] when the module has been loaded: the five seeded keys, then
    every key the platform reports, assigned in order. *)
Definition tvKeys_seed : list (string * number) :=
  [ ("ArrowDown", Num 40);
    ("ArrowUp", Num 38);
    ("ArrowLeft", Num 37);
    ("ArrowRight", Num 39);
    ("Enter", Num 13) ].

Definition tvKeys_loaded : list (string * number) :=
  fold_left (fun keys el => assoc_set (fst el) (snd el) keys)
            (getSupportedKeys rt) tvKeys_seed.

(** The variables as the module's initialiser leaves them. *)
Definition initial : state :=
  {| channel := None;
     eventBus := Data VNull;
     tvKeys := tvKeys_loaded;
     videoId := VNum (Num (-1));
     clientCallbacks := [];
     maxClients := Num 2;
     forbiddenClients := [];
     allowingAllClients := false;
     global_keycode := None;
     global_event := None |}.

(** [send]: [channel.publish.apply(channel, arguments)]. *)
Definition send (args : list jsval) : M unit :=
  _ <- theChannel ;;
  emit (Publish args).

Definition error (type : jsval) : M unit :=
  payload <-
    (match type with
     | Data (VStr s) =>
         ret (Data (VObj [("message", VStr s); ("code", VNum (Num 9999))]))
     | Data (VNum n) =>
         e <- orTypeError (errors_at n) ;;
         ret (Data (VObj [("message", VStr (fst e)); ("code", VNum (Num (snd e)))]))
     | _ => ret type
     end) ;;
  send [Data (VStr "error"); payload].

(** [sendKeydownEvent]: the synthetic key press goes to the event bus, or
    to [document.activeElement] when the bus is [null]; a bus that is not
    a dispatch target has neither [dispatchEvent] nor [fireEvent]. *)
Definition sendKeydownEvent (keyCode : keyval) : M unit :=
  s <- get ;;
  match eventBus s with
  | Data VNull => emit (KeydownEvent None keyCode)
  | Element e => emit (KeydownEvent (Some e) keyCode)
  | _ => throw TypeError
  end.

Definition isClientAllowed (s : state) (c : client) : bool :=
  if indexOf (forbiddenClients s) (id c) <? 0 then true else false.

Definition onChannelConnect (err : value) : M unit :=
  if truthy err then
    emit (Console "error" "Error initializing FastCast!")
  else
    ch <- theChannel ;;
    forEach (clients ch)
      (fun c => if isHost c then ret tt else emit (ChannelEmit "clientConnect" c)) ;;
    send [Data (VStr "ready")].

(** [clientCallbacks[event]] *)
Definition clientCallback (s : state) (event : string) : jsval :=
  match assoc event (clientCallbacks s) with
  | Some cb => cb
  | None => Data VUndefined
  end.

Definition onClientDisconnect (c : client) : M unit :=
  ch <- theChannel ;;
  s <- get ;;
  (if num_le (Num (Z.of_nat (List.length (clients ch)))) (maxClients s)
   then modify (set_forbiddenClients [])
   else ret tt) ;;
  match clientCallback s "disconnect" with
  | Func f => emit (CallWithClient f c)
  | _ => ret tt
  end.

(** [raiseError]: an "error" message to one client. *)
Definition messages (code : Z) : value :=
  if code =? 403 then VStr "Access denied"
  else if code =? 500 then VStr "Internal error"
  else VUndefined.

Definition raiseError (code : Z) (clientId : string) : M unit :=
  send [ Data (VStr "error");
         Data (VObj [("message", messages code); ("code", VNum (Num code))]);
         Data (VStr clientId) ].

Definition onClientConnect (c : client) : M unit :=
  send [Data (VStr "ready")] ;;
  ch <- theChannel ;;
  s <- get ;;
  if num_lt (maxClients s) (Num (Z.of_nat (List.length (clients ch)))) then
    raiseError 403 (id c) ;;
    modify (fun s => set_forbiddenClients (forbiddenClients s ++ [id c]) s)
  else
    (let i := indexOf (forbiddenClients s) (id c) in
     if -1 <? i
     then modify (set_forbiddenClients (splice1 (forbiddenClients s) (Z.to_nat i)))
     else ret tt) ;;
    v <- (match clientCallback s "connect" with
          | Func f => emit (CallWithClient f c) ;; ret (callback_result rt f c)
          | _ => ret VUndefined
          end) ;;
    if truthy v then modify (set_videoId v) else ret tt.

(** [onChannelConnect] as it runs on the channel [connect] has set up.
    [connect] registers [onClientConnect] on "clientConnect" before it
    hands [onChannelConnect] to [channel.connect], and [channel.emit]
    calls the listeners of an event before it returns: each emit of the
    loop runs [onClientConnect] for that client, on the live
    [channel.clients].  (One call of [connect], so one registration.) *)
Definition emitClientConnect (c : client) : M unit :=
  emit (ChannelEmit "clientConnect" c) ;;
  onClientConnect c.

Definition onChannelConnect_listening (err : value) : M unit :=
  if truthy err then
    emit (Console "error" "Error initializing FastCast!")
  else
    ch <- theChannel ;;
    forEach (clients ch)
      (fun c => if isHost c then ret tt else emitClientConnect c) ;;
    send [Data (VStr "ready")].

Definition onConnect : M unit := ret tt.

Definition onDisconnect : M unit := ret tt.

(** [tvKeys[key]]: an own property, or what [Object.prototype] gives. *)
Definition objectPrototype : list string :=
  [ "constructor"; "toString"; "toLocaleString"; "valueOf";
    "hasOwnProperty"; "isPrototypeOf"; "propertyIsEnumerable";
    "__defineGetter__"; "__defineSetter__"; "__lookupGetter__";
    "__lookupSetter__"; "__proto__" ].

Definition tvKeys_at (s : state) (key : string) : keyval :=
  match assoc key (tvKeys s) with
  | Some n => KeyValue (VNum n)
  | None =>
      if existsb (String.eqb key) objectPrototype then KeyInherited key
      else KeyValue VUndefined
  end.

Definition onKeydown (parsed : value) : M unit :=
  kc <- orTypeError (getProp parsed "keycode") ;;
  if truthy kc then
    key <- orTypeError (toString kc) ;;
    s <- get ;;
    (if truthyK (tvKeys_at s key) then
       modify (set_global_keycode (Some (tvKeys_at s key)))
     else if String.eqb (typeof kc) "number" then
       modify (set_global_keycode (Some (KeyValue kc)))
     else ret tt) ;;
    s' <- get ;;
    match global_keycode s' with
    | Some keycode => sendKeydownEvent keycode
    | None => throw ReferenceError
    end
  else ret tt.

Definition onVolume (parsed : value) : M unit :=
  v <- orTypeError (getProp parsed "value") ;;
  volume <- orTypeError (parseInt v) ;;
  if negb (isNaN volume) then
    let isMute := if num_lt volume (Num 0) then true else false in
    let volume := num_abs volume in
    let detail := VObj [("volume", VNum volume); ("isMute", VBool isMute)] in
    emit (SetVolume volume) ;;
    emit (SetMute isMute) ;;
    modify (set_global_event (Some ("ms2:volume", detail))) ;;
    emit (DocumentDispatch "ms2:volume" (Some detail))
  else ret tt.

Definition onSeek (parsed : value) : M unit :=
  position <- orTypeError (getProp parsed "position") ;;
  if truthy position then
    emit (DocumentDispatch "ms2:seek" (Some (VObj [("position", position)])))
  else ret tt.

Definition onPlay (parsed : value) : M unit :=
  vid <- orTypeError (getProp parsed "videoId") ;;
  if truthy vid then
    modify (set_videoId vid) ;;
    position <- orTypeError (getProp parsed "position") ;;
    data <- orTypeError (getProp parsed "data") ;;
    let detail := [("videoId", vid); ("position", position)] in
    let detail := if truthy data then (detail ++ [("data", data)])%list else detail in
    emit (DocumentDispatch "ms2:play" (Some (VObj detail)))
  else ret tt.

Definition onReclaim (parsed : value) : M unit :=
  emit (DocumentDispatch "ms2:reclaim" None).

(** [eventCallbacks]: the protocol handlers by event name.  The module
    never assigns to this object. *)
Definition eventCallbacks : list (string * (value -> M unit)) :=
  [ ("keydown", onKeydown);
    ("seek", onSeek);
    ("volume", onVolume);
    ("play", onPlay);
    ("reclaim", onReclaim) ].

(** The payload the wrapper hands to the handler: a string goes through
    [JSON.parse], whose exception is caught and leaves [parsed] at its
    initial [null]; anything else is passed as it is. *)
Definition parsePayload (obj : value) : value :=
  match obj with
  | VStr s =>
      match JSON_parse rt s with
      | Some v => v
      | None => VNull
      end
  | _ => obj
  end.

(** [dispatch(event)(obj, client)], over the table it looks the handler
    up in.  A name that is no key of the table has no function bound
    (names inherited from [Object.prototype] are not modelled: [connect]
    builds the wrapper for the five protocol names only). *)
Definition dispatchWith (callbacks : list (string * (value -> M unit)))
  (event : string) (obj : value) (c : client) : M value :=
  match assoc event callbacks with
  | None => raiseError 500 (id c) ;; ret (VBool false)
  | Some handler =>
      s <- get ;;
      if negb (isClientAllowed s c) && negb (allowingAllClients s) then
        raiseError 403 (id c) ;; ret (VBool false)
      else
        handler (parsePayload obj) ;; ret VUndefined
  end.

Definition dispatch : string -> value -> client -> M value :=
  dispatchWith eventCallbacks.

(** The sender passes the wrapper's allow check. *)
Definition admitted (s : state) (c : client) : Prop :=
  isClientAllowed s c = true \/ allowingAllClients s = true.

Definition onVisibilityChangeHandle : M unit := emit AddVisibilityListener.

(** The listener [onVisibilityChangeHandle] installs. *)
Definition onVisibilityChange (hidden : bool) : M unit :=
  if hidden then send [Data (VStr "suspend")] else send [Data (VStr "restore")].

(** [channel.on(name, l)] *)
Definition channel_on (name : jsval) (l : listener) : M unit :=
  _ <- theChannel ;;
  emit (ChannelOn name l).

(** [connect]: an object [prop] becomes the options, given the own name
    when it has no truthy [name] (for a [prop] that is not an object
    literal the added property is not represented). *)
Definition connect (prop maximumClients : jsval) : M unit :=
  options <-
    (if String.eqb (typeofJ prop) "object" then
       match prop with
       | Data (VObj fields) =>
           match assoc "name" fields with
           | Some n =>
               if truthy n then ret prop
               else ret (Data (VObj (assoc_set "name" (VStr ownName) fields)))
           | None => ret (Data (VObj (assoc_set "name" (VStr ownName) fields)))
           end
       | Data VNull => throw TypeError
       | _ => ret prop
       end
     else ret (Data (VObj [("name", VStr ownName)]))) ;;
  let maximumClients :=
    if String.eqb (typeofJ prop) "object" then maximumClients
    else if String.eqb (typeofJ prop) "number" then prop
    else maximumClients in
  (match maximumClients with
   | Data (VNum n) =>
       if num_lt n (Num 0) then modify (set_allowingAllClients true)
       else modify (set_maxClients (num_add n (Num 1)))
   | _ => ret tt
   end) ;;
  channel_on (Data (VStr "keydown")) (LDispatch "keydown") ;;
  channel_on (Data (VStr "seek")) (LDispatch "seek") ;;
  channel_on (Data (VStr "volume")) (LDispatch "volume") ;;
  channel_on (Data (VStr "play")) (LDispatch "play") ;;
  channel_on (Data (VStr "reclaim")) (LDispatch "reclaim") ;;
  channel_on (Data (VStr "clientConnect")) LOnClientConnect ;;
  channel_on (Data (VStr "clientDisconnect")) LOnClientDisconnect ;;
  channel_on (Data (VStr "connect")) LOnConnect ;;
  channel_on (Data (VStr "disconnect")) LOnDisconnect ;;
  _ <- theChannel ;;
  emit (ChannelConnect options) ;;
  onVisibilityChangeHandle.

(** [setCallback(event)(callback)] *)
Definition setCallback (event : string) (callback : jsval) : M unit :=
  modify (fun s => set_clientCallbacks (assoc_set event callback (clientCallbacks s)) s).

(** [init]: up to the call of [msf.local]; the continuation is
    [init_resolved]. *)
Definition init (chanName eb callback : jsval) : M unit :=
  if negb (msf_loaded rt) then
    emit (Console "error" "FastCast framework not loaded!")
  else
    s <- get ;;
    if (match channel s with Some ch => isConnected ch | None => false end) then
      ret tt
    else
      match chanName with
      | Data (VStr name) =>
          if String.eqb name "" then
            emit (Console "error" "Channel name MUST be provided and MUST be a string!")
          else
            let '(eb, callback) :=
              if String.eqb (typeofJ eb) "function"
              then (Data VNull, eb) else (eb, callback) in
            modify (set_eventBus eb) ;;
            emit (MsfLocal name callback)
      | _ =>
          emit (Console "error" "Channel name MUST be provided and MUST be a string!")
      end.

(** The function [init] passes to [msf.local], called with the error and
    with the channel [service.channel(chanName)] answers. *)
Definition init_resolved (callback : jsval) (err : value) (ch : channelT) : M unit :=
  if truthy err then
    emit (Console "error" "FastCast initialization failed:")
  else
    modify (set_channel (Some ch)) ;;
    match callback with
    | Func f => emit (CallNoArgs f)
    | _ => ret tt
    end.

Definition deinit : M unit :=
  _ <- theChannel ;;
  emit ChannelDisconnect ;;
  modify (set_channel None).

Definition play (vid position data : value) : M unit :=
  let castParams := [("videoId", vid); ("position", position)] in
  let castParams :=
    if truthy data then (castParams ++ [("data", data)])%list else castParams in
  send [Data (VStr "play"); Data (VObj castParams)].

Definition num_neg (n : number) : number :=
  match n with
  | Num z => Num (0 - z)
  | NaN => NaN
  end.

Definition sendStatus (statusObj : value) : M unit :=
  s <- get ;;
  let statusObj :=
    if truthy statusObj then statusObj
    else
      let volume := tvaudiocontrol_getVolume rt in
      let volume := if tvaudiocontrol_isMute rt then num_neg volume else volume in
      VObj [ ("state", avplay_getState rt);
             ("position", avplay_getCurrentTime rt);
             ("totalTime", avplay_getDuration rt);
             ("volume", VNum volume);
             ("videoId", videoId s) ] in
  send [Data (VStr "status"); Data (VStr (JSON_stringify rt statusObj))].

(** [on]: the names that cannot be registered are the keys of
    [eventCallbacks] followed by the four generic events. *)
Definition restrictedEvents : list string :=
  (map fst eventCallbacks ++ ["connect"; "disconnect"; "clientConnect"; "clientDisconnect"])%list.

Definition isRestricted (eventName : jsval) : bool :=
  match eventName with
  | Data (VStr name) => -1 <? indexOf restrictedEvents name
  | _ => false
  end.

Definition on (eventName callback : jsval) : M value :=
  if isRestricted eventName then
    emit (Console "debug"
            ("Registering event "
               ++ match eventName with Data (VStr n) => n | _ => "" end
               ++ " is forbidden. Please use library API.")) ;;
    ret (VBool false)
  else
    let l :=
      match callback with
      | Func f => LUser f
      | _ => LLogNoop eventName
      end in
    channel_on eventName l ;;
    ret VUndefined.

End FastCast.

(** ** The module as a transition system *)

(** The five protocol messages [connect] registers a dispatcher for. *)
Inductive protocolEvent :=
| EvKeydown
| EvSeek
| EvVolume
| EvPlay
| EvReclaim.

Definition eventName (e : protocolEvent) : string :=
  match e with
  | EvKeydown => "keydown"
  | EvSeek => "seek"
  | EvVolume => "volume"
  | EvPlay => "play"
  | EvReclaim => "reclaim"
  end.

(** Everything that runs code of the module: the operations it exports,
    and the listeners it hands to the SDK and to the document. *)
Inductive op :=
| Init (chanName eb callback : jsval)
| InitResolved (callback : jsval) (err : value) (ch : channelT)
| Deinit
| Connect (prop maximumClients : jsval)
| Send (args : list jsval)
| Play (vid position data : value)
| Status (statusObj : value)
| Error (type : jsval)
| On (eventName callback : jsval)
| SetOnClientConnect (callback : jsval)
| SetOnClientDisconnect (callback : jsval)
| ChannelConnected (err : value)
| ClientConnect (c : client)
| ClientDisconnect (c : client)
| TvConnect
| TvDisconnect
| Message (e : protocolEvent) (obj : value) (c : client)
| VisibilityChange (hidden : bool).

Definition returning {A} (v : value) (m : M A) : M value := m ;; ret v.

Definition step (rt : Runtime) (o : op) : M value :=
  match o with
  | Init chanName eb callback => returning VUndefined (init rt chanName eb callback)
  | InitResolved callback err ch => returning VUndefined (init_resolved callback err ch)
  | Deinit => returning VUndefined deinit
  | Connect prop maximumClients => returning VUndefined (connect prop maximumClients)
  | Send args => returning VUndefined (send args)
  | Play vid position data => returning VUndefined (play vid position data)
  | Status statusObj => returning VUndefined (sendStatus rt statusObj)
  | Error type => returning VUndefined (error type)
  | On name callback => on name callback
  | SetOnClientConnect callback => returning VUndefined (setCallback "connect" callback)
  | SetOnClientDisconnect callback => returning VUndefined (setCallback "disconnect" callback)
  | ChannelConnected err => returning VUndefined (onChannelConnect err)
  | ClientConnect c => returning VUndefined (onClientConnect rt c)
  | ClientDisconnect c => returning VUndefined (onClientDisconnect c)
  | TvConnect => returning VUndefined onConnect
  | TvDisconnect => returning VUndefined onDisconnect
  | Message e obj c => dispatch rt (eventName e) obj c
  | VisibilityChange hidden => returning VUndefined (onVisibilityChange hidden)
  end.

(** The SDK keeps [channel.clients]: the host (the module itself skips
    the entries with [isHost] in [onChannelConnect]) and every connected
    client.  A client that joins is added to the list, then the
    [clientConnect] listener runs, so that the list a listener sees
    counts the client it is called for; this is what makes
    [maximumClients] the "maximum number of simultaneously connected
    clients" of [connect]'s documentation. *)
Definition sdk_addClient (c : client) (s : state) : state :=
  match channel s with
  | Some ch =>
      set_channel
        (Some {| clients := clients ch ++ [c]; isConnected := isConnected ch |}) s
  | None => s
  end.

Definition clientJoins (rt : Runtime) (c : client) : M unit :=
  modify (sdk_addClient c) ;; onClientConnect rt c.

(** ** A concrete runtime

    [json_parse] is [JSON.parse] on the JSON texts whose values the model
    holds: safe integers, and strings without [\u] escapes.  On any other
    text it answers [None], also where [JSON.parse] would accept a
    fraction, an exponent or a [\u] escape: the concrete runs below stay
    inside the fragment. *)

Definition quote : ascii := ascii_of_nat 34.
Definition backslash : ascii := ascii_of_nat 92.

Definition isJsonWhiteSpace (c : ascii) : bool :=
  let n := nat_of_ascii c in
  ((n =? 32) || (n =? 9) || (n =? 10) || (n =? 13))%nat.

Fixpoint skipJsonWhiteSpace (s : string) : string :=
  match s with
  | String c r => if isJsonWhiteSpace c then skipJsonWhiteSpace r else s
  | EmptyString => s
  end.

Definition unescape (c : ascii) : option ascii :=
  let n := nat_of_ascii c in
  if (n =? 34)%nat then Some quote
  else if (n =? 92)%nat then Some backslash
  else if (n =? 47)%nat then Some "/"%char
  else if (n =? 98)%nat then Some (ascii_of_nat 8)
  else if (n =? 102)%nat then Some (ascii_of_nat 12)
  else if (n =? 110)%nat then Some (ascii_of_nat 10)
  else if (n =? 114)%nat then Some (ascii_of_nat 13)
  else if (n =? 116)%nat then Some (ascii_of_nat 9)
  else None.

(** The characters of a string literal after its opening quote, and the
    text after its closing quote. *)
Fixpoint parseStringBody (s : string) (acc : string) : option (string * string) :=
  match s with
  | EmptyString => None
  | String c r =>
      if Ascii.eqb c quote then Some (acc, r)
      else if Ascii.eqb c backslash then
        match r with
        | String e r' =>
            match unescape e with
            | Some x => parseStringBody r' (acc ++ String x EmptyString)
            | None => None
            end
        | EmptyString => None
        end
      else if (nat_of_ascii c <? 32)%nat then None
      else parseStringBody r (acc ++ String c EmptyString)
  end.

Fixpoint spanDigits (s : string) : string * string :=
  match s with
  | String c r =>
      match digitValue c with
      | Some _ => let '(d, rest) := spanDigits r in (String c d, rest)
      | None => (EmptyString, s)
      end
  | EmptyString => (EmptyString, EmptyString)
  end.

Definition parseNumber (s : string) : option (value * string) :=
  let '(negative, s) :=
    match s with
    | String "-" r => (true, r)
    | _ => (false, s)
    end in
  let '(digits, rest) := spanDigits s in
  let leadingZero :=
    match digits with
    | String "0" (String _ _) => true
    | _ => false
    end in
  let outside :=
    match rest with
    | String "." _ | String "e" _ | String "E" _ => true
    | _ => false
    end in
  if leadingZero || outside then None
  else
    match readDigits digits None with
    | Some n => Some (VNum (Num (if negative then - n else n)), rest)
    | None => None
    end.

Fixpoint dropPrefix (p s : string) : option string :=
  match p, s with
  | EmptyString, _ => Some s
  | String a p', String b s' => if Ascii.eqb a b then dropPrefix p' s' else None
  | String _ _, EmptyString => None
  end.

Fixpoint parseValue (fuel : nat) (s : string) : option (value * string) :=
  match fuel with
  | O => None
  | S fuel' =>
      match skipJsonWhiteSpace s with
      | EmptyString => None
      | String c r =>
          if Ascii.eqb c "{" then
            match skipJsonWhiteSpace r with
            | String "}" r' => Some (VObj [], r')
            | _ => parseMembers fuel' [] r
            end
          else if Ascii.eqb c "[" then
            match skipJsonWhiteSpace r with
            | String "]" r' => Some (VArr [], r')
            | _ => parseItems fuel' [] r
            end
          else if Ascii.eqb c quote then
            match parseStringBody r "" with
            | Some (str, r') => Some (VStr str, r')
            | None => None
            end
          else
            match dropPrefix "true" (String c r), dropPrefix "false" (String c r),
                  dropPrefix "null" (String c r) with
            | Some r', _, _ => Some (VBool true, r')
            | _, Some r', _ => Some (VBool false, r')
            | _, _, Some r' => Some (VNull, r')
            | None, None, None => parseNumber (String c r)
            end
      end
  end
with parseItems (fuel : nat) (acc : list value) (s : string)
  : option (value * string) :=
  match fuel with
  | O => None
  | S fuel' =>
      match parseValue fuel' s with
      | Some (v, r) =>
          match skipJsonWhiteSpace r with
          | String "," r' => parseItems fuel' (acc ++ [v])%list r'
          | String "]" r' => Some (VArr (acc ++ [v]), r')
          | _ => None
          end
      | None => None
      end
  end
with parseMembers (fuel : nat) (acc : list (string * value)) (s : string)
  : option (value * string) :=
  match fuel with
  | O => None
  | S fuel' =>
      match skipJsonWhiteSpace s with
      | String c r =>
          if Ascii.eqb c quote then
            match parseStringBody r "" with
            | Some (k, r1) =>
                match skipJsonWhiteSpace r1 with
                | String ":" r2 =>
                    match parseValue fuel' r2 with
                    | Some (v, r3) =>
                        match skipJsonWhiteSpace r3 with
                        | String "," r4 => parseMembers fuel' (assoc_set k v acc) r4
                        | String "}" r4 => Some (VObj (assoc_set k v acc), r4)
                        | _ => None
                        end
                    | None => None
                    end
                | _ => None
                end
            | None => None
            end
          else None
      | EmptyString => None
      end
  end.

Definition json_parse (s : string) : option value :=
  match parseValue (2 * String.length s + 2) s with
  | Some (v, rest) =>
      match skipJsonWhiteSpace rest with
      | EmptyString => Some v
      | String _ _ => None
      end
  | None => None
  end.

(** [JSON.stringify] on the same fragment.  In a string a quote and a
    backslash are escaped, the control characters are written as the
    two-character escapes [\b \t \n \f \r] or as [\u00xx]; a property
    holding [undefined] is left out. *)
Definition hexDigit (n : nat) : ascii :=
  ascii_of_nat (if (n <? 10)%nat then 48 + n else 87 + n).

Definition escapeChar (c : ascii) : string :=
  let n := nat_of_ascii c in
  if Ascii.eqb c quote || Ascii.eqb c backslash
  then String backslash (String c EmptyString)
  else if (n =? 8)%nat then String backslash "b"
  else if (n =? 9)%nat then String backslash "t"
  else if (n =? 10)%nat then String backslash "n"
  else if (n =? 12)%nat then String backslash "f"
  else if (n =? 13)%nat then String backslash "r"
  else if (n <? 32)%nat then
    String backslash
      ("u00" ++ String (hexDigit (n / 16)) (String (hexDigit (n mod 16)) EmptyString))
  else String c EmptyString.

Fixpoint escape (s : string) : string :=
  match s with
  | EmptyString => EmptyString
  | String c r => escapeChar c ++ escape r
  end.

Definition quoted (s : string) : string :=
  String quote (escape s ++ String quote EmptyString).

Fixpoint json_stringify (v : value) : string :=
  match v with
  | VUndefined => "undefined"
  | VNull => "null"
  | VBool true => "true"
  | VBool false => "false"
  | VNum NaN => "null"
  | VNum (Num z) => Z_to_string z
  | VStr s => quoted s
  | VArr items =>
      "[" ++ join ","
               (map (fun x => match x with
                              | VUndefined => "null"
                              | _ => json_stringify x
                              end) items) ++ "]"
  | VObj fields =>
      let fix members (l : list (string * value)) : list string :=
        match l with
        | [] => []
        | (k, VUndefined) :: r => members r
        | (k, x) :: r => (quoted k ++ ":" ++ json_stringify x) :: members r
        end in
      "{" ++ join "," (members fields) ++ "}"
  end.

Definition tizen_tv : Runtime :=
  {| JSON_parse := json_parse;
     JSON_stringify := json_stringify;
     msf_loaded := true;
     getSupportedKeys := [("MediaPlay", Num 415); ("MediaPause", Num 19)];
     tvaudiocontrol_getVolume := Num 10;
     tvaudiocontrol_isMute := false;
     avplay_getState := VStr "PLAYING";
     avplay_getCurrentTime := VNum (Num 0);
     avplay_getDuration := VNum (Num 0);
     callback_result := fun _ _ => VUndefined |}.

(** The payload text [{"value":"-30"}], and a text that is no JSON. *)
Definition dq : string := String quote EmptyString.
Definition volume_minus30_text : string :=
  "{" ++ dq ++ "value" ++ dq ++ ":" ++ dq ++ "-30" ++ dq ++ "}".
Definition seek_zero_text : string :=
  "{" ++ dq ++ "position" ++ dq ++ ":0}".
Definition malformed_text : string := "not json".

Definition host : client :=
  {| id := "tv"; isHost := true; attributes := VObj [("name", VStr "TV")];
     connectTime := 0 |}.

Definition mobile (name : string) : client :=
  {| id := name; isHost := false; attributes := VObj [("name", VStr name)];
     connectTime := 1 |}.

(** The module once [init] has resolved a channel on which only the host
    is present. *)
Definition ready : state :=
  set_channel (Some {| clients := [host]; isConnected := false |}) (initial tizen_tv).

(** A channel with the host and two clients, the second of which has been
    denied access. *)
Definition crowded : state :=
  set_forbiddenClients ["b"]
    (set_channel
       (Some {| clients := [host; mobile "a"; mobile "b"]; isConnected := true |})
       (initial tizen_tv)).

(** ** Vocabulary of the properties *)

(** The "error" message [raiseError] sends for an access that is denied. *)
Definition accessDenied (clientId : string) : effect :=
  Publish [ Data (VStr "error");
            Data (VObj [("message", VStr "Access denied"); ("code", VNum (Num 403))]);
            Data (VStr clientId) ].

Definition readyBroadcast : effect := Publish [Data (VStr "ready")].

(** A computation that leaves the component [f] of the state as it
    found it, however it completes. *)
Definition preserves {X A} (f : state -> X) (m : M A) : Prop :=
  forall s, f (final (m s)) = f s.

(** What [onClientConnect] does for a client it admits: the id leaves
    [forbiddenClients] if it was there, the application's connect callback
    runs, and a truthy answer becomes the current video. *)
Definition admission (rt : Runtime) (c : client) (s : state) : outcome unit :=
  let i := indexOf (forbiddenClients s) (id c) in
  let s1 :=
    if -1 <? i
    then set_forbiddenClients (splice1 (forbiddenClients s) (Z.to_nat i)) s
    else s in
  match clientCallback s "connect" with
  | Func f =>
      let v := callback_result rt f c in
      {| result := Normal tt;
         final := if truthy v then set_videoId v s1 else s1;
         trace := [readyBroadcast; CallWithClient f c] |}
  | _ => {| result := Normal tt; final := s1; trace := [readyBroadcast] |}
  end.

(** What [onClientConnect] does for a client it denies. *)
Definition denial (c : client) (s : state) : outcome unit :=
  {| result := Normal tt;
     final := set_forbiddenClients (forbiddenClients s ++ [id c]) s;
     trace := [readyBroadcast; accessDenied (id c)] |}.

(** The names the spec reserves: the five protocol messages and the four
    generic events. *)
Definition reservedNames : list string :=
  [ "keydown"; "seek"; "volume"; "play"; "reclaim";
    "connect"; "disconnect"; "clientConnect"; "clientDisconnect" ].

(** The payload of the "error" broadcast as the spec describes it: a
    string becomes [{message, code: 9999}], the numbers 0, 1 and 2 select
    the predefined errors, any other value is sent as it is. *)
Definition errorPayload (type : jsval) : jsval :=
  match type with
  | Data (VStr s) => Data (VObj [("message", VStr s); ("code", VNum (Num 9999))])
  | Data (VNum (Num 0)) =>
      Data (VObj [("message", VStr "Not connected"); ("code", VNum (Num 500))])
  | Data (VNum (Num 1)) =>
      Data (VObj [("message", VStr "Seek failed"); ("code", VNum (Num 500))])
  | Data (VNum (Num 2)) =>
      Data (VObj [("message", VStr "No such stream"); ("code", VNum (Num 404))])
  | _ => type
  end.

(** The number a string of decimal digits denotes, most significant digit
    first, continuing from [acc]. *)
Fixpoint uintValue (d : Decimal.uint) (acc : Z) : Z :=
  match d with
  | Decimal.Nil => acc
  | Decimal.D0 l => uintValue l (10 * acc + 0)
  | Decimal.D1 l => uintValue l (10 * acc + 1)
  | Decimal.D2 l => uintValue l (10 * acc + 2)
  | Decimal.D3 l => uintValue l (10 * acc + 3)
  | Decimal.D4 l => uintValue l (10 * acc + 4)
  | Decimal.D5 l => uintValue l (10 * acc + 5)
  | Decimal.D6 l => uintValue l (10 * acc + 6)
  | Decimal.D7 l => uintValue l (10 * acc + 7)
  | Decimal.D8 l => uintValue l (10 * acc + 8)
  | Decimal.D9 l => uintValue l (10 * acc + 9)
  end.

(** The application notifications of the seek and volume handlers. *)
Definition seekNotification (position : value) : effect :=
  DocumentDispatch "ms2:seek" (Some (VObj [("position", position)])).

Definition volumeDetail (n : Z) : value :=
  VObj [("volume", VNum (Num (Z.abs n))); ("isMute", VBool (n <? 0))].

Definition volumeNotification (n : Z) : effect :=
  DocumentDispatch "ms2:volume" (Some (volumeDetail n)).

(** ** Vocabulary of the further properties *)

(** The "error" message [raiseError] sends when no handler is bound. *)
Definition internalError (clientId : string) : effect :=
  Publish [ Data (VStr "error");
            Data (VObj [("message", VStr "Internal error"); ("code", VNum (Num 500))]);
            Data (VStr clientId) ].

(** Effects on the TV itself: the platform audio controls and the events
    dispatched in the page.  Nothing of this goes through the channel. *)
Definition localEffect (e : effect) : Prop :=
  match e with
  | SetVolume _ | SetMute _ | DocumentDispatch _ _ | KeydownEvent _ _ => True
  | _ => False
  end.

(** A computation all of whose effects satisfy [P]. *)
Definition emits_only {A} (P : effect -> Prop) (m : M A) : Prop :=
  forall s, Forall P (trace (m s)).

(** A computation that keeps the property [P] of the state. *)
Definition maintains {A} (P : state -> Prop) (m : M A) : Prop :=
  forall s, P s -> P (final (m s)).

(** The state after a sequence of transitions, whether they return or
    throw. *)
Fixpoint run (rt : Runtime) (ops : list op) (s : state) : state :=
  match ops with
  | [] => s
  | o :: r => run rt r (final (step rt o s))
  end.

(** What [sendKeydownEvent] does with a key code in the state [s]. *)
Definition keyPress (s : state) (keyCode : keyval) : outcome value :=
  match eventBus s with
  | Data VNull =>
      {| result := Normal VUndefined; final := s;
         trace := [KeydownEvent None keyCode] |}
  | Element el =>
      {| result := Normal VUndefined; final := s;
         trace := [KeydownEvent (Some el) keyCode] |}
  | _ => {| result := Throw TypeError; final := s; trace := [] |}
  end.

(** The status object [sendStatus] builds when it is given none. *)
Definition autoStatus (rt : Runtime) (s : state) : value :=
  VObj [ ("state", avplay_getState rt);
         ("position", avplay_getCurrentTime rt);
         ("totalTime", avplay_getDuration rt);
         ("volume",
          VNum (if tvaudiocontrol_isMute rt
                then num_neg (tvaudiocontrol_getVolume rt)
                else tvaudiocontrol_getVolume rt));
         ("videoId", videoId s) ].

(** The parameters [play] broadcasts, and [onPlay] announces. *)
Definition playParams (vid position data : value) : value :=
  VObj ([("videoId", vid); ("position", position)]
          ++ (if truthy data then [("data", data)] else []))%list.

(** The nine listeners [connect] registers, in order. *)
Definition registrations : list effect :=
  [ ChannelOn (Data (VStr "keydown")) (LDispatch "keydown");
    ChannelOn (Data (VStr "seek")) (LDispatch "seek");
    ChannelOn (Data (VStr "volume")) (LDispatch "volume");
    ChannelOn (Data (VStr "play")) (LDispatch "play");
    ChannelOn (Data (VStr "reclaim")) (LDispatch "reclaim");
    ChannelOn (Data (VStr "clientConnect")) LOnClientConnect;
    ChannelOn (Data (VStr "clientDisconnect")) LOnClientDisconnect;
    ChannelOn (Data (VStr "connect")) LOnConnect;
    ChannelOn (Data (VStr "disconnect")) LOnDisconnect ].

(** A TV whose platform reports an Enter key of its own, muted at level
    12. *)
Definition tizen_tv_muted : Runtime :=
  {| JSON_parse := json_parse;
     JSON_stringify := json_stringify;
     msf_loaded := true;
     getSupportedKeys := [("Enter", Num 10009); ("MediaPlay", Num 415); ("Enter", Num 29443)];
     tvaudiocontrol_getVolume := Num 12;
     tvaudiocontrol_isMute := true;
     avplay_getState := VStr "PAUSED";
     avplay_getCurrentTime := VNum (Num 1500);
     avplay_getDuration := VNum (Num 90000);
     callback_result := fun f _ => if Nat.eqb f 0 then VNum (Num 42) else VUndefined |}.

(** The operations and listeners that call the channel before doing
    anything else.  ([connect] writes the client limit first; [init],
    the callback setters, the protocol messages of an admitted client and
    the two empty listeners do not need it.) *)
Definition needsChannel (o : op) : bool :=
  match o with
  | Deinit | Send _ | Play _ _ _ | Status _ | Error _ => true
  | On name _ => negb (isRestricted name)
  | ChannelConnected err => negb (truthy err)
  | ClientConnect _ | ClientDisconnect _ | VisibilityChange _ => true
  | _ => false
  end.

(** What the announcement of one client adds to the trace when the
    client is admitted: the emit, the listener's "ready", and the call of
    the connect handler [cb] when it is a function. *)
Definition announced (cb : jsval) (c : client) : list effect :=
  ChannelEmit "clientConnect" c :: readyBroadcast ::
    match cb with
    | Func f => [CallWithClient f c]
    | _ => []
    end.

Definition isVisibilityListener (e : effect) : bool :=
  match e with
  | AddVisibilityListener => true
  | _ => false
  end.

(** ** Properties *)

(** *** [parseInt] reads back the integers that ToString prints *)

Lemma readDigits_string_of_uint (d : Decimal.uint) (a : Z) :
  readDigits (NilEmpty.string_of_uint d) (Some a) = Some (uintValue d a).
Proof.
  revert a. induction d; intros a; simpl; try reflexivity; apply IHd.
Qed.

Lemma readDigits_string_of_uint_None (d : Decimal.uint) :
  d <> Decimal.Nil ->
  readDigits (NilEmpty.string_of_uint d) None = Some (uintValue d 0).
Proof.
  destruct d; intros H; try congruence; simpl; apply readDigits_string_of_uint.
Qed.

Lemma of_uint_acc_value (d : Decimal.uint) (acc : positive) :
  Z.pos (Pos.of_uint_acc d acc) = uintValue d (Z.pos acc).
Proof.
  revert acc. induction d; intros acc; cbn [Pos.of_uint_acc uintValue];
    try reflexivity; rewrite IHd; f_equal; lia.
Qed.

Lemma of_uint_value (d : Decimal.uint) :
  Z.of_N (Pos.of_uint d) = uintValue d 0.
Proof.
  induction d; simpl; try reflexivity; try exact IHd;
    rewrite of_uint_acc_value; reflexivity.
Qed.

Lemma uintValue_to_uint (p : positive) : uintValue (Pos.to_uint p) 0 = Z.pos p.
Proof.
  rewrite <- of_uint_value, DecimalPos.Unsigned.of_to. reflexivity.
Qed.

Lemma string_of_uint_head (d : Decimal.uint) :
  d <> Decimal.Nil ->
  exists c r, NilEmpty.string_of_uint d = String c r
    /\ isWhiteSpace c = false /\ c <> "-"%char /\ c <> "+"%char.
Proof.
  destruct d; intros H; try congruence; simpl;
    eexists; eexists; (split; [reflexivity|]); repeat split; discriminate.
Qed.

Lemma parseInt_string_digits (d : Decimal.uint) :
  d <> Decimal.Nil ->
  parseInt_string (NilEmpty.string_of_uint d) = Num (uintValue d 0).
Proof.
  intros H. pose proof (readDigits_string_of_uint_None d H) as R.
  destruct (string_of_uint_head d H) as [c [r [E [W [M P]]]]].
  unfold parseInt_string. rewrite E in *. cbn [skipWhiteSpace]. rewrite W.
  destruct c as [[|] [|] [|] [|] [|] [|] [|] [|]];
    try (exfalso; apply M; reflexivity); try (exfalso; apply P; reflexivity);
    rewrite R; f_equal; lia.
Qed.

Lemma parseInt_string_negated (d : Decimal.uint) :
  d <> Decimal.Nil ->
  parseInt_string (String "-" (NilEmpty.string_of_uint d)) = Num (- uintValue d 0).
Proof.
  intros H. unfold parseInt_string.
  change (skipWhiteSpace (String "-" (NilEmpty.string_of_uint d)))
    with (String "-" (NilEmpty.string_of_uint d)).
  cbv iota beta. rewrite (readDigits_string_of_uint_None d H).
  f_equal; lia.
Qed.

Lemma NilZero_string_of_uint (d : Decimal.uint) :
  d <> Decimal.Nil -> NilZero.string_of_uint d = NilEmpty.string_of_uint d.
Proof. destruct d; intros H; congruence || reflexivity. Qed.

(** [parseInt(n, 10)] of a number [n] is [n]: the digits [Z_to_string]
    prints are read back.  (JavaScript prints these digits for a safe
    integer [n].) *)
Lemma parseInt_number (z : Z) : parseInt (VNum (Num z)) = Some (Num z).
Proof.
  unfold parseInt. cbn [toString number_to_string]. f_equal.
  unfold Z_to_string. destruct z as [|p|p]; [reflexivity| |];
    cbn [Z.to_int NilZero.string_of_int];
    pose proof (DecimalPos.Unsigned.to_uint_nonnil p) as N;
    rewrite (NilZero_string_of_uint _ N).
  - now rewrite (parseInt_string_digits _ N), uintValue_to_uint.
  - now rewrite (parseInt_string_negated _ N), uintValue_to_uint.
Qed.

(** *** Arrays of client ids *)

Lemma indexOf_range (l : list string) (x : string) :
  -1 <= indexOf l x < Z.of_nat (List.length l).
Proof.
  induction l as [|y r IH]; simpl.
  - lia.
  - destruct (String.eqb y x).
    + lia.
    + destruct (Z.ltb_spec (indexOf r x) 0); lia.
Qed.

Lemma indexOf_absent (l : list string) (x : string) :
  indexOf l x = -1 <-> ~ In x l.
Proof.
  induction l as [|y r IH]; simpl.
  - tauto.
  - destruct (String.eqb_spec y x) as [E|E].
    + split; [lia | intros H; exfalso; apply H; now left].
    + pose proof (indexOf_range r x) as R.
      destruct (Z.ltb_spec (indexOf r x) 0) as [L|L].
      * assert (indexOf r x = -1) as I by lia.
        split; [|reflexivity].
        intros _ [H|H]; [congruence | now apply IH in H].
      * split; [lia|].
        intros H. exfalso. apply H. right.
        destruct (in_dec string_dec x r) as [Hin|Hout]; [exact Hin|].
        apply IH in Hout. lia.
Qed.

Lemma isClientAllowed_spec (s : state) (c : client) :
  isClientAllowed s c = true <-> ~ In (id c) (forbiddenClients s).
Proof.
  unfold isClientAllowed.
  rewrite <- indexOf_absent.
  pose proof (indexOf_range (forbiddenClients s) (id c)).
  destruct (Z.ltb_spec (indexOf (forbiddenClients s) (id c)) 0); split;
    intros; try lia; try reflexivity; discriminate.
Qed.

Lemma isClientAllowed_denied (s : state) (c : client) :
  In (id c) (forbiddenClients s) -> isClientAllowed s c = false.
Proof.
  intros H. destruct (isClientAllowed s c) eqn:E; [|reflexivity].
  apply isClientAllowed_spec in E. contradiction.
Qed.

(** *** Running the module's computations *)

Lemma bind_Normal {A B} (m : M A) (f : A -> M B) (s s1 : state) (a : A)
  (t1 : list effect) :
  m s = {| result := Normal a; final := s1; trace := t1 |} ->
  bind m f s =
    {| result := result (f a s1); final := final (f a s1);
       trace := t1 ++ trace (f a s1) |}.
Proof. intros H. unfold bind. rewrite H. now destruct (f a s1). Qed.

Lemma bind_Throw {A B} (m : M A) (f : A -> M B) (s s1 : state) (e : exn)
  (t1 : list effect) :
  m s = {| result := Throw e; final := s1; trace := t1 |} ->
  bind m f s = {| result := Throw e; final := s1; trace := t1 |}.
Proof. intros H. unfold bind. now rewrite H. Qed.

Lemma outcome_eta {A} (o : outcome A) :
  {| result := result o; final := final o; trace := trace o |} = o.
Proof. now destruct o. Qed.

Ltac unfold_monad :=
  repeat (progress (unfold theChannel, returning, orTypeError, bind, ret, get,
                      modify, emit, throw in *; simpl in *)).

Lemma send_connected (args : list jsval) (s : state) (ch : channelT) :
  channel s = Some ch ->
  send args s = {| result := Normal tt; final := s; trace := [Publish args] |}.
Proof.
  intros H. unfold send. unfold_monad. rewrite H. reflexivity.
Qed.

Lemma send_no_channel (args : list jsval) (s : state) :
  channel s = None ->
  send args s = {| result := Throw TypeError; final := s; trace := [] |}.
Proof.
  intros H. unfold send. unfold_monad. rewrite H. reflexivity.
Qed.

Lemma raiseError_403 (clientId : string) (s : state) (ch : channelT) :
  channel s = Some ch ->
  raiseError 403 clientId s =
    {| result := Normal tt; final := s; trace := [accessDenied clientId] |}.
Proof.
  intros H. unfold raiseError. now rewrite (send_connected _ s ch H).
Qed.

Lemma returning_final {A} (v : value) (m : M A) (s : state) :
  final (returning v m s) = final (m s).
Proof. unfold returning, bind, ret. now destruct (m s) as [[a|e] s1 t1]. Qed.

Lemma get_run (s : state) :
  get s = {| result := Normal s; final := s; trace := [] |}.
Proof. reflexivity. Qed.

Lemma theChannel_connected (s : state) (ch : channelT) :
  channel s = Some ch ->
  theChannel s = {| result := Normal ch; final := s; trace := [] |}.
Proof. intros H. unfold theChannel. unfold_monad. now rewrite H. Qed.

(** *** Frame rules *)

Lemma preserves_ret {X A} (f : state -> X) (a : A) : preserves f (ret a).
Proof. intros s. reflexivity. Qed.

Lemma preserves_throw {X A} (f : state -> X) (e : exn) :
  preserves f (@throw A e).
Proof. intros s. reflexivity. Qed.

Lemma preserves_emit {X} (f : state -> X) (e : effect) : preserves f (emit e).
Proof. intros s. reflexivity. Qed.

Lemma preserves_get {X} (f : state -> X) : preserves f get.
Proof. intros s. reflexivity. Qed.

Lemma preserves_bind {X A B} (f : state -> X) (m : M A) (k : A -> M B) :
  preserves f m -> (forall a, preserves f (k a)) -> preserves f (bind m k).
Proof.
  intros Hm Hk s. unfold bind.
  specialize (Hm s).
  destruct (m s) as [[a|e] s1 t1]; cbn [final] in *.
  - specialize (Hk a s1). destruct (k a s1) as [r s2 t2]. cbn [final] in *.
    congruence.
  - exact Hm.
Qed.

Lemma preserves_modify {X} (f : state -> X) (g : state -> state) :
  (forall s, f (g s) = f s) -> preserves f (modify g).
Proof. intros H s. apply H. Qed.

Lemma preserves_orTypeError {X A} (f : state -> X) (o : option A) :
  preserves f (orTypeError o).
Proof. destruct o; [apply preserves_ret | apply preserves_throw]. Qed.

Lemma preserves_forEach {X A} (f : state -> X) (l : list A) (k : A -> M unit) :
  (forall a, preserves f (k a)) -> preserves f (forEach l k).
Proof.
  intros H. induction l as [|a r IH]; simpl.
  - apply preserves_ret.
  - apply preserves_bind; [apply H | intros _; exact IH].
Qed.

(** Decompose a computation into its binds and branches; what is left are
    the writes to the component. *)
Ltac frame :=
  repeat first
    [ apply preserves_ret | apply preserves_throw | apply preserves_emit
    | apply preserves_get | apply preserves_orTypeError
    | apply preserves_modify; intros; reflexivity
    | apply preserves_forEach; intros; cbv beta
    | apply preserves_bind; [| intros]
    | match goal with
      | |- preserves _ (match ?x with _ => _ end) => destruct x
      end ].

Lemma preserves_send {X} (f : state -> X) (args : list jsval) :
  preserves f (send args).
Proof. unfold send, theChannel. frame. Qed.

Lemma preserves_raiseError {X} (f : state -> X) (code : Z) (clientId : string) :
  preserves f (raiseError code clientId).
Proof. unfold raiseError. apply preserves_send. Qed.

Lemma splice1_length (l : list string) (i : nat) :
  (List.length l <= S (List.length (splice1 l i)))%nat.
Proof.
  revert i. induction l as [|y r IH]; intros [|j]; simpl; try lia.
  specialize (IH j). lia.
Qed.

(** Taking the first occurrence of [y] out leaves every other id in. *)
Lemma splice1_others (l : list string) (x y : string) :
  x <> y -> In y l -> In x l -> In x (splice1 l (Z.to_nat (indexOf l y))).
Proof.
  intros Hxy. induction l as [|z r IH]; intros Hy Hx; [contradiction|].
  cbn [indexOf]. destruct (String.eqb_spec z y) as [E|E].
  - cbn. destruct Hx as [Hx|Hx]; [congruence | exact Hx].
  - assert (In y r) as Hy' by (destruct Hy; [contradiction | assumption]).
    pose proof (indexOf_range r y) as R.
    destruct (Z.ltb_spec (indexOf r y) 0) as [L|L].
    + exfalso. assert (indexOf r y = -1) as A by lia.
      apply indexOf_absent in A. contradiction.
    + replace (Z.to_nat (indexOf r y + 1)) with (S (Z.to_nat (indexOf r y))) by lia.
      cbn [splice1]. destruct Hx as [Hx|Hx]; [now left | right; now apply IH].
Qed.

(** *** The deny-list *)

Section DenyList.

Variable rt : Runtime.

Lemma preserves_dispatch {X} (f : state -> X) (e : protocolEvent) (obj : value)
  (c : client) :
  (forall v s, f (set_videoId v s) = f s) ->
  (forall k s, f (set_global_keycode k s) = f s) ->
  (forall k s, f (set_global_event k s) = f s) ->
  preserves f (dispatch rt (eventName e) obj c).
Proof.
  intros Hv Hk He. unfold dispatch, dispatchWith.
  destruct e; cbn [eventName assoc eventCallbacks String.eqb Ascii.eqb Bool.eqb];
    unfold onKeydown, onSeek, onVolume, onPlay, onReclaim, sendKeydownEvent;
    repeat first
      [ apply preserves_raiseError
      | apply preserves_modify; intros; first [apply Hv | apply Hk | apply He]
      | progress frame ].
Qed.

Lemma onClientConnect_denies (c : client) (s : state) (ch : channelT) :
  channel s = Some ch ->
  num_lt (maxClients s) (Num (Z.of_nat (List.length (clients ch)))) = true ->
  onClientConnect rt c s = denial c s.
Proof.
  intros Hch Hlt. unfold onClientConnect, denial.
  rewrite (bind_Normal _ _ _ _ _ _ (send_connected _ s ch Hch)).
  rewrite (bind_Normal _ _ _ _ _ _ (theChannel_connected s ch Hch)).
  rewrite (bind_Normal _ _ _ _ _ _ (get_run s)).
  rewrite Hlt.
  rewrite (bind_Normal _ _ _ _ _ _ (raiseError_403 (id c) s ch Hch)).
  reflexivity.
Qed.

Lemma onClientConnect_admits (c : client) (s : state) (ch : channelT) :
  channel s = Some ch ->
  num_lt (maxClients s) (Num (Z.of_nat (List.length (clients ch)))) = false ->
  onClientConnect rt c s = admission rt c s.
Proof.
  intros Hch Hlt. unfold onClientConnect, admission.
  rewrite (bind_Normal _ _ _ _ _ _ (send_connected _ s ch Hch)).
  rewrite (bind_Normal _ _ _ _ _ _ (theChannel_connected s ch Hch)).
  rewrite (bind_Normal _ _ _ _ _ _ (get_run s)).
  rewrite Hlt.
  unfold clientCallback.
  destruct (-1 <? indexOf (forbiddenClients s) (id c));
    destruct (assoc "connect" (clientCallbacks s)) as [[d|f|el]|];
    unfold_monad; try reflexivity;
    destruct (truthy (callback_result rt f c)); reflexivity.
Qed.

Lemma onClientConnect_no_channel (c : client) (s : state) :
  channel s = None ->
  onClientConnect rt c s = {| result := Throw TypeError; final := s; trace := [] |}.
Proof.
  intros Hch. unfold onClientConnect.
  now rewrite (bind_Throw _ _ _ _ _ _ (send_no_channel _ s Hch)).
Qed.

Lemma admission_forbiddenClients (c : client) (s : state) :
  forbiddenClients (final (admission rt c s)) =
    if -1 <? indexOf (forbiddenClients s) (id c)
    then splice1 (forbiddenClients s) (Z.to_nat (indexOf (forbiddenClients s) (id c)))
    else forbiddenClients s.
Proof.
  unfold admission.
  destruct (clientCallback s "connect") as [d|f|el]; cbn [final];
    try destruct (truthy (callback_result rt f c));
    destruct (-1 <? indexOf (forbiddenClients s) (id c)); reflexivity.
Qed.

Ltac unfold_operations :=
  unfold init, init_resolved, deinit, connect, channel_on,
    onVisibilityChangeHandle, play, sendStatus, error, on, setCallback,
    onChannelConnect, onClientConnect, onClientDisconnect, onConnect,
    onDisconnect, onVisibilityChange, theChannel.

(** Every operation and listener other than the two client listeners
    leaves the deny-list alone. *)
Lemma step_preserves_forbiddenClients (o : op) :
  (forall c, o <> ClientConnect c) ->
  (forall c, o <> ClientDisconnect c) ->
  preserves forbiddenClients (step rt o).
Proof.
  intros Hc Hd. destruct o; cbn [step]; unfold returning;
    try (exfalso; eapply Hc; reflexivity);
    try (exfalso; eapply Hd; reflexivity);
    try (apply preserves_dispatch; reflexivity);
    unfold_operations; frame; apply preserves_send.
Qed.

(** Only [connect] writes [allowingAllClients]. *)
Lemma step_preserves_allowingAllClients (o : op) :
  (forall prop maximumClients, o <> Connect prop maximumClients) ->
  preserves allowingAllClients (step rt o).
Proof.
  intros Hc. destruct o; cbn [step]; unfold returning;
    try (exfalso; eapply Hc; reflexivity);
    try (apply preserves_dispatch; reflexivity);
    unfold_operations; frame;
    first [apply preserves_send | apply preserves_raiseError].
Qed.

(** What a transition other than a client disconnect does to the
    deny-list. *)
Lemma step_forbiddenClients (o : op) (s : state) :
  (forall c, o <> ClientDisconnect c) ->
  forbiddenClients (final (step rt o s)) = forbiddenClients s
  \/ exists c, o = ClientConnect c
       /\ (forbiddenClients (final (step rt o s)) = (forbiddenClients s ++ [id c])%list
           \/ (In (id c) (forbiddenClients s)
               /\ forbiddenClients (final (step rt o s)) =
                    splice1 (forbiddenClients s)
                      (Z.to_nat (indexOf (forbiddenClients s) (id c))))).
Proof.
  intros Hd.
  destruct o;
    try (left; apply step_preserves_forbiddenClients; [discriminate | exact Hd]).
  cbn [step]. rewrite returning_final.
  destruct (channel s) as [ch|] eqn:Hch.
  - destruct (num_lt (maxClients s) (Num (Z.of_nat (List.length (clients ch)))))
      eqn:Hlt.
    + rewrite (onClientConnect_denies c s ch Hch Hlt). cbn.
      right. exists c. split; [reflexivity|]. now left.
    + rewrite (onClientConnect_admits c s ch Hch Hlt).
      rewrite admission_forbiddenClients.
      destruct (Z.ltb_spec (-1) (indexOf (forbiddenClients s) (id c))) as [L|L].
      * right. exists c. split; [reflexivity|]. right. split; [|reflexivity].
        destruct (in_dec string_dec (id c) (forbiddenClients s)) as [I|I];
          [exact I|]. apply indexOf_absent in I. lia.
      * now left.
  - rewrite (onClientConnect_no_channel c s Hch). now left.
Qed.

(** C5. [forbiddenClients] is emptied by the client-disconnect listener
    exactly when [channel.clients.length <= maxClients] at that event, and
    is left as it was by a disconnect above the limit.  No other operation
    or listener empties it wholesale: all leave it unchanged except the
    client-connect listener, which adds the connecting client's id at the
    end or takes one occurrence of that id out, so the list loses at most
    one entry. *)
Theorem forbiddenClients_cleared_on_disconnect_only :
  (forall (c : client) (s : state),
      forbiddenClients (final (step rt (ClientDisconnect c) s)) =
        match channel s, maxClients s with
        | Some ch, Num m =>
            if Z.of_nat (List.length (clients ch)) <=? m then []
            else forbiddenClients s
        | _, _ => forbiddenClients s
        end)
  /\ (forall (o : op) (s : state),
         (forall c, o <> ClientDisconnect c) ->
         let l := forbiddenClients s in
         let l' := forbiddenClients (final (step rt o s)) in
         (l' = l
          \/ exists c, o = ClientConnect c
               /\ (l' = (l ++ [id c])%list
                   \/ (In (id c) l
                       /\ l' = splice1 l (Z.to_nat (indexOf l (id c))))))
         /\ (List.length l <= S (List.length l'))%nat).
Proof.
  split.
  - intros c s. cbn [step]. rewrite returning_final.
    unfold onClientDisconnect, clientCallback.
    destruct (channel s) as [ch|] eqn:Hch.
    + rewrite (bind_Normal _ _ _ _ _ _ (theChannel_connected s ch Hch)).
      rewrite (bind_Normal _ _ _ _ _ _ (get_run s)). cbn [final].
      destruct (maxClients s) as [|m]; cbn [num_le];
        try destruct (Z.of_nat (List.length (clients ch)) <=? m);
        destruct (assoc "disconnect" (clientCallbacks s)) as [[d|f|el]|];
        reflexivity.
    + unfold_monad. rewrite Hch. reflexivity.
  - intros o s Hd l l'. subst l l'.
    pose proof (step_forbiddenClients o s Hd) as G.
    split; [exact G|].
    destruct G as [E | [c [_ [E | [_ E]]]]]; rewrite E.
    + lia.
    + rewrite length_app. simpl. lia.
    + apply splice1_length.
Qed.

(** C10. A client that connects while [channel.clients.length] exceeds
    [maxClients] gets the "ready" broadcast and the 403 error and its id is
    appended to [forbiddenClients]; nothing else changes: the connect
    callback of the application is not called, [videoId] and the entries
    already on the list stay as they were.  (This does not depend on
    [allowingAllClients].) *)
Theorem onClientConnect_over_limit
  (c : client) (s : state) (ch : channelT) (m : Z) :
  channel s = Some ch ->
  maxClients s = Num m ->
  m < Z.of_nat (List.length (clients ch)) ->
  let o := onClientConnect rt c s in
  result o = Normal tt
  /\ trace o = [readyBroadcast; accessDenied (id c)]
  /\ final o = set_forbiddenClients (forbiddenClients s ++ [id c]) s
  /\ (forall f c', ~ In (CallWithClient f c') (trace o))
  /\ videoId (final o) = videoId s
  /\ clientCallbacks (final o) = clientCallbacks s
  /\ forbiddenClients (final o) = (forbiddenClients s ++ [id c])%list.
Proof.
  intros Hch Hm Hlt o. subst o.
  rewrite (onClientConnect_denies c s ch Hch).
  - unfold denial. cbn. repeat split.
    intros f c' [H|[H|[]]]; discriminate.
  - rewrite Hm. cbn. now apply Z.ltb_lt.
Qed.

(** C4. While [allowingAllClients] is false, a message of any protocol
    event from a client whose id is on [forbiddenClients] is answered with
    the 403 error to that client and nothing else happens: the outcome is
    the same whatever handler is bound to the event, so the handler is not
    run, and the state is left as it was.  The id stays on the list, and
    the flag stays false, across every transition of the module except a
    client disconnect (which may clear the list), the connect event of
    that same id (which may take it out) and a call of [connect]. *)
Theorem dispatch_rejects_forbidden_client
  (callbacks : list (string * (value -> M unit))) (handler : value -> M unit)
  (e : protocolEvent) (obj : value) (c : client) (s : state) (ch : channelT) :
  channel s = Some ch ->
  allowingAllClients s = false ->
  In (id c) (forbiddenClients s) ->
  assoc (eventName e) callbacks = Some handler ->
  dispatchWith rt callbacks (eventName e) obj c s =
    {| result := Normal (VBool false); final := s; trace := [accessDenied (id c)] |}
  /\ dispatch rt (eventName e) obj c s =
    {| result := Normal (VBool false); final := s; trace := [accessDenied (id c)] |}
  /\ (forall o : op,
         (forall c', o <> ClientDisconnect c') ->
         (forall c', o = ClientConnect c' -> id c' <> id c) ->
         (forall prop maximumClients, o <> Connect prop maximumClients) ->
         allowingAllClients (final (step rt o s)) = false
         /\ In (id c) (forbiddenClients (final (step rt o s)))).
Proof.
  intros Hch Hall Hin Hcb.
  assert (forall cbs h, assoc (eventName e) cbs = Some h ->
            dispatchWith rt cbs (eventName e) obj c s =
            {| result := Normal (VBool false); final := s;
               trace := [accessDenied (id c)] |}) as G.
  { intros cbs h Hh. unfold dispatchWith. rewrite Hh.
    rewrite (bind_Normal _ _ _ _ _ _ (get_run s)).
    rewrite (isClientAllowed_denied s c Hin), Hall. cbn [negb andb].
    rewrite (bind_Normal _ _ _ _ _ _ (raiseError_403 (id c) s ch Hch)).
    reflexivity. }
  split; [now apply G with handler|]. split.
  - unfold dispatch. destruct e; eapply G; reflexivity.
  - intros o Hd Hc Hn. split.
    + now rewrite (step_preserves_allowingAllClients o Hn s).
    + destruct (step_forbiddenClients o s Hd) as [E | [c' [Eo [E | [I E]]]]];
        rewrite E.
      * exact Hin.
      * apply in_or_app. now left.
      * apply splice1_others; [|exact I|exact Hin].
        intros Heq. now apply (Hc c' Eo).
Qed.

End DenyList.

(** *** The protocol handlers behind the dispatcher *)

Section Handlers.

Variable rt : Runtime.

(** An admitted sender's message reaches the handler bound to the event,
    with the parsed payload. *)
Lemma dispatchWith_admitted
  (callbacks : list (string * (value -> M unit))) (handler : value -> M unit)
  (event : string) (obj : value) (c : client) (s : state) :
  admitted s c ->
  assoc event callbacks = Some handler ->
  dispatchWith rt callbacks event obj c s =
    returning VUndefined (handler (parsePayload rt obj)) s.
Proof.
  intros Hadm Hcb. unfold dispatchWith. rewrite Hcb.
  rewrite (bind_Normal _ _ _ _ _ _ (get_run s)).
  assert (negb (isClientAllowed s c) && negb (allowingAllClients s) = false) as E.
  { destruct Hadm as [H|H]; rewrite H; cbn; [reflexivity | apply andb_false_r]. }
  rewrite E. cbn [app]. apply outcome_eta.
Qed.

Lemma onSeek_run (parsed : value) (s : state) :
  onSeek parsed s =
    match getProp parsed "position" with
    | Some position =>
        {| result := Normal tt; final := s;
           trace := if truthy position then [seekNotification position] else [] |}
    | None => {| result := Throw TypeError; final := s; trace := [] |}
    end.
Proof.
  unfold onSeek. destruct (getProp parsed "position") as [p|]; unfold_monad.
  - destruct (truthy p); reflexivity.
  - reflexivity.
Qed.

(** C8. For a seek message from an admitted client, the [ms2:seek]
    notification carrying [{position}] is emitted if and only if the
    [position] property of the parsed payload is truthy; a position of 0,
    or any other falsy one, emits nothing.  The state is never changed; a
    payload that parses to [null] or [undefined] has no properties, and
    the handler throws without emitting. *)
Theorem seek_notifies_iff_position_truthy (obj : value) (c : client) (s : state) :
  admitted s c ->
  let o := dispatch rt "seek" obj c s in
  final o = s
  /\ match getProp (parsePayload rt obj) "position" with
     | Some position =>
         result o = Normal VUndefined
         /\ trace o = if truthy position then [seekNotification position] else []
     | None => result o = Throw TypeError /\ trace o = []
     end
  /\ ((exists detail, In (DocumentDispatch "ms2:seek" detail) (trace o))
      <-> exists position,
            getProp (parsePayload rt obj) "position" = Some position
            /\ truthy position = true)
  /\ (getProp (parsePayload rt obj) "position" = Some (VNum (Num 0)) ->
      trace o = []).
Proof.
  intros Hadm o. subst o. unfold dispatch.
  rewrite (dispatchWith_admitted eventCallbacks onSeek "seek" obj c s Hadm eq_refl).
  unfold returning, bind. rewrite onSeek_run.
  destruct (getProp (parsePayload rt obj) "position") as [p|];
    cbn [result final trace app ret]; rewrite ?app_nil_r.
  - split; [reflexivity|]. split; [now split|].
    destruct (truthy p) eqn:T; (split; [split|]).
    + intros _. now exists p.
    + intros _. eexists. left. reflexivity.
    + intros E. injection E as ->. discriminate.
    + intros [d []].
    + intros [p' [E T']]. congruence.
    + reflexivity.
  - split; [reflexivity|]. split; [now split|]. split; [split|].
    + intros [d []].
    + intros [p [E _]]. discriminate.
    + discriminate.
Qed.

Lemma onVolume_run (parsed : value) (s : state) :
  onVolume parsed s =
    match getProp parsed "value" with
    | Some v =>
        match parseInt v with
        | Some (Num n) =>
            {| result := Normal tt;
               final := set_global_event (Some ("ms2:volume", volumeDetail n)) s;
               trace := [SetVolume (Num (Z.abs n)); SetMute (n <? 0);
                         volumeNotification n] |}
        | Some NaN => {| result := Normal tt; final := s; trace := [] |}
        | None => {| result := Throw TypeError; final := s; trace := [] |}
        end
    | None => {| result := Throw TypeError; final := s; trace := [] |}
    end.
Proof.
  unfold onVolume. destruct (getProp parsed "value") as [v|]; unfold_monad.
  - destruct (parseInt v) as [[|n]|]; cbn; try reflexivity.
    unfold volumeNotification, volumeDetail.
    destruct (n <? 0); reflexivity.
  - reflexivity.
Qed.

(** C7. For a volume message from an admitted client the [value]
    property is read with [parseInt(value, 10)]: the level and the mute
    flag are those of the integer [n] that begins the string form of the
    value, not of the value.  When [n] is a safe integer, the platform
    volume is set to [|n|] and the mute control to [n < 0], and exactly
    one [ms2:volume] notification carrying [{volume: |n|, isMute: n < 0}]
    is dispatched.  When the string form begins with no integer (NaN)
    nothing happens.  (A payload without properties, or a value that
    cannot be converted to a string, makes the handler throw, also without
    any effect.)  A value that is a safe integer [n] is read back as [n].
    In particular [{"value":"-30"}] gives [{volume: 30, isMute: true}]. *)
Theorem volume_notification (obj : value) (c : client) (s : state) :
  admitted s c ->
  let o := dispatch rt "volume" obj c s in
  match getProp (parsePayload rt obj) "value" with
  | Some v =>
      match parseInt v with
      | Some (Num n) =>
          safeInteger n ->
          o = {| result := Normal VUndefined;
                 final := set_global_event (Some ("ms2:volume", volumeDetail n)) s;
                 trace := [SetVolume (Num (Z.abs n)); SetMute (n <? 0);
                           volumeNotification n] |}
      | Some NaN => o = {| result := Normal VUndefined; final := s; trace := [] |}
      | None => o = {| result := Throw TypeError; final := s; trace := [] |}
      end
  | None => o = {| result := Throw TypeError; final := s; trace := [] |}
  end
  /\ (forall n : Z,
         safeInteger n ->
         getProp (parsePayload rt obj) "value" = Some (VNum (Num n)) ->
         trace o = [SetVolume (Num (Z.abs n)); SetMute (n <? 0); volumeNotification n])
  /\ (parsePayload rt obj = VObj [("value", VStr "-30")] ->
      trace o =
        [ SetVolume (Num 30); SetMute true;
          DocumentDispatch "ms2:volume"
            (Some (VObj [("volume", VNum (Num 30)); ("isMute", VBool true)])) ]).
Proof.
  intros Hadm o. subst o. unfold dispatch.
  rewrite (dispatchWith_admitted eventCallbacks onVolume "volume" obj c s Hadm eq_refl).
  unfold returning, bind. rewrite onVolume_run.
  split; [|split].
  - destruct (getProp (parsePayload rt obj) "value") as [v|]; [|reflexivity].
    destruct (parseInt v) as [[|n]|]; [reflexivity | intros _ | ]; reflexivity.
  - intros n _ E. rewrite E, parseInt_number. reflexivity.
  - intros E. rewrite E. reflexivity.
Qed.

(** C1 (what the code does).  A payload string that [JSON.parse] rejects
    reaches the handler as [null].  The keydown, seek, volume and play
    handlers read a property of it first, which throws a TypeError out of
    the dispatcher; only the reclaim handler, which ignores its argument,
    runs, and it dispatches its notification. *)
Theorem dispatch_malformed_payload_throws (text : string) (c : client) (s : state) :
  JSON_parse rt text = None ->
  admitted s c ->
  (forall e, e <> EvReclaim ->
     dispatch rt (eventName e) (VStr text) c s =
       {| result := Throw TypeError; final := s; trace := [] |})
  /\ dispatch rt "reclaim" (VStr text) c s =
       {| result := Normal VUndefined; final := s;
          trace := [DocumentDispatch "ms2:reclaim" None] |}.
Proof.
  intros Hparse Hadm.
  assert (parsePayload rt (VStr text) = VNull) as P.
  { unfold parsePayload. now rewrite Hparse. }
  split.
  - intros e He. unfold dispatch.
    destruct e; try (exfalso; now apply He); cbn [eventName].
    + rewrite (dispatchWith_admitted eventCallbacks onKeydown "keydown" _ c s Hadm eq_refl).
      rewrite P. reflexivity.
    + rewrite (dispatchWith_admitted eventCallbacks onSeek "seek" _ c s Hadm eq_refl).
      rewrite P. reflexivity.
    + rewrite (dispatchWith_admitted eventCallbacks onVolume "volume" _ c s Hadm eq_refl).
      rewrite P. reflexivity.
    + rewrite (dispatchWith_admitted eventCallbacks onPlay "play" _ c s Hadm eq_refl).
      rewrite P. reflexivity.
  - unfold dispatch.
    rewrite (dispatchWith_admitted eventCallbacks onReclaim "reclaim" _ c s Hadm eq_refl).
    reflexivity.
Qed.

End Handlers.

(** *** Outbound operations *)

Lemma indexOf_present (l : list string) (x : string) :
  (-1 <? indexOf l x) = true <-> In x l.
Proof.
  pose proof (indexOf_range l x) as R. pose proof (indexOf_absent l x) as A.
  destruct (Z.ltb_spec (-1) (indexOf l x)) as [L|L]; split; intros H;
    try reflexivity; try discriminate.
  - destruct (in_dec string_dec x l) as [I|I]; [exact I|]. apply A in I. lia.
  - exfalso. assert (indexOf l x = -1) as E by lia. apply A in E. contradiction.
Qed.

Lemma restrictedEvents_reserved : restrictedEvents = reservedNames.
Proof. reflexivity. Qed.

Lemma isRestricted_reserved (name : string) :
  In name reservedNames -> isRestricted (Data (VStr name)) = true.
Proof.
  intros H. unfold isRestricted. apply indexOf_present.
  now rewrite restrictedEvents_reserved.
Qed.

Lemma isRestricted_other (eventName : jsval) :
  (forall name, In name reservedNames -> eventName <> Data (VStr name)) ->
  isRestricted eventName = false.
Proof.
  intros H. destruct eventName as [[| | | |name| |]|f|el]; try reflexivity.
  unfold isRestricted.
  destruct (-1 <? indexOf restrictedEvents name) eqn:E; [|reflexivity].
  apply indexOf_present in E. rewrite restrictedEvents_reserved in E.
  exfalso. now apply (H name E).
Qed.

(** C9. [on] refuses each of the nine reserved names: it returns
    [false], logs, and calls nothing on the channel.  For any other name
    it registers the given function on the channel, or a logging callback
    of its own when the second argument is not a function. *)
Theorem on_rejects_reserved_names (callback : jsval) (s : state) :
  (forall name, In name reservedNames ->
     on (Data (VStr name)) callback s =
       {| result := Normal (VBool false); final := s;
          trace := [Console "debug"
                      ("Registering event " ++ name
                         ++ " is forbidden. Please use library API.")] |})
  /\ (forall eventName ch,
         channel s = Some ch ->
         (forall name, In name reservedNames -> eventName <> Data (VStr name)) ->
         on eventName callback s =
           {| result := Normal VUndefined; final := s;
              trace := [ChannelOn eventName
                          (match callback with
                           | Func f => LUser f
                           | _ => LLogNoop eventName
                           end)] |}).
Proof.
  split.
  - intros name H. unfold on. rewrite (isRestricted_reserved name H). reflexivity.
  - intros eventName ch Hch H. unfold on, channel_on.
    rewrite (isRestricted_other eventName H).
    unfold_monad. rewrite Hch. reflexivity.
Qed.

Lemma errors_at_outside (n : number) :
  n <> Num 0 -> n <> Num 1 -> n <> Num 2 -> errors_at n = None.
Proof.
  intros H0 H1 H2. destruct n as [|z]; [reflexivity|]. unfold errors_at.
  destruct (Z.ltb_spec z 0) as [L|L]; [reflexivity|].
  apply nth_error_None. cbn [errors List.length].
  assert (z <> 0 /\ z <> 1 /\ z <> 2) as [? [? ?]] by (repeat split; congruence).
  lia.
Qed.

(** C6 (amended).  With the channel handle set, [error] broadcasts one
    "error" message and returns normally for a string (sent as
    [{message, code: 9999}]), for the numbers 0, 1 and 2 (sent as the
    predefined error of that index) and for every value that is neither a
    string nor a number (sent as it is).  A number with no entry in the
    table makes it throw a TypeError before anything is sent. *)
Theorem error_broadcasts (type : jsval) (s : state) (ch : channelT) :
  channel s = Some ch ->
  ((forall n, type = Data (VNum n) -> n = Num 0 \/ n = Num 1 \/ n = Num 2) ->
   error type s =
     {| result := Normal tt; final := s;
        trace := [Publish [Data (VStr "error"); errorPayload type]] |})
  /\ (forall n, type = Data (VNum n) -> n <> Num 0 -> n <> Num 1 -> n <> Num 2 ->
      error type s = {| result := Throw TypeError; final := s; trace := [] |}).
Proof.
  intros Hch. split.
  - intros H. unfold error, send.
    destruct type as [[| | |n|str| |]|f|el];
      try (unfold_monad; rewrite Hch; reflexivity).
    destruct (H n eq_refl) as [-> | [-> | ->]];
      unfold_monad; rewrite Hch; reflexivity.
  - intros n -> H0 H1 H2. unfold error.
    rewrite (errors_at_outside n H0 H1 H2). reflexivity.
Qed.

(** *** Capacity *)

Section Capacity.

Variable rt : Runtime.

(** What [connect] leaves in the admission variables when it is given an
    object literal and a number: they are written before the channel is
    touched, so this holds whether or not the call completes. *)
Lemma connect_final (fields : list (string * value)) (n : Z) (s : state) :
  final (connect (Data (VObj fields)) (Data (VNum (Num n))) s) =
    if n <? 0 then set_allowingAllClients true s
    else set_maxClients (Num (n + 1)) s.
Proof.
  unfold connect, channel_on, onVisibilityChangeHandle.
  cbn [typeofJ typeof String.eqb Ascii.eqb Bool.eqb num_lt num_add].
  destruct (assoc "name" fields) as [nm|]; [destruct (truthy nm)|];
    destruct (n <? 0); destruct (channel s) eqn:Hch;
    repeat (first [rewrite Hch | progress unfold_monad]); reflexivity.
Qed.

Lemma admission_frame (c : client) (s : state) :
  channel (final (admission rt c s)) = channel s
  /\ maxClients (final (admission rt c s)) = maxClients s
  /\ ~ In (accessDenied (id c)) (trace (admission rt c s)).
Proof.
  unfold admission.
  destruct (clientCallback s "connect") as [d|f|el]; cbn [final trace];
    try destruct (truthy (callback_result rt f c));
    destruct (-1 <? indexOf (forbiddenClients s) (id c));
    repeat split; try reflexivity;
    cbn; intros H; repeat destruct H as [H|H]; try discriminate; exact H.
Qed.

Lemma sdk_addClient_channel (c : client) (s : state) (ch : channelT) :
  channel s = Some ch ->
  channel (sdk_addClient c s) =
    Some {| clients := clients ch ++ [c]; isConnected := isConnected ch |}.
Proof. intros H. unfold sdk_addClient. now rewrite H. Qed.

Lemma sdk_addClient_maxClients (c : client) (s : state) :
  maxClients (sdk_addClient c s) = maxClients s.
Proof. unfold sdk_addClient. now destruct (channel s). Qed.

(** C3 (amended).  [connect({}, 1)] stores 2 in [maxClients].  With that
    value a connecting client is denied (403 and deny-list) exactly when
    [channel.clients] has more than two entries at the event.  The list
    holds the host and every connected client, the connecting one
    included, so after the host the first client to connect is admitted
    and the second one is the first to be denied. *)
Theorem connect_1_admits_one_client (s : state) (hostc : client) (conn : bool) :
  channel s = Some {| clients := [hostc]; isConnected := conn |} ->
  let s1 := final (connect (Data (VObj [])) (Data (VNum (Num 1))) s) in
  maxClients s1 = Num 2
  /\ (forall c1 c2 : client,
         let sa := sdk_addClient c1 s1 in
         let sb := sdk_addClient c2 (final (onClientConnect rt c1 sa)) in
         onClientConnect rt c1 sa = admission rt c1 sa
         /\ ~ In (accessDenied (id c1)) (trace (onClientConnect rt c1 sa))
         /\ onClientConnect rt c2 sb = denial c2 sb)
  /\ (forall (s2 : state) (ch : channelT) (c : client),
         maxClients s2 = Num 2 ->
         channel s2 = Some ch ->
         (onClientConnect rt c s2 = denial c s2
          <-> 2 < Z.of_nat (List.length (clients ch)))).
Proof.
  intros Hch s1. subst s1. rewrite connect_final.
  cbn [Z.ltb Z.compare Z.add Pos.add Pos.succ].
  split; [reflexivity|]. split.
  - intros c1 c2.
    set (sa := sdk_addClient c1 (set_maxClients (Num 2) s)).
    assert (channel sa = Some {| clients := [hostc; c1]; isConnected := conn |}) as Ca.
    { subst sa.
      now rewrite (sdk_addClient_channel c1 (set_maxClients (Num 2) s) _ Hch). }
    assert (maxClients sa = Num 2) as Ma.
    { subst sa. now rewrite sdk_addClient_maxClients. }
    assert (onClientConnect rt c1 sa = admission rt c1 sa) as A.
    { apply (onClientConnect_admits rt c1 sa _ Ca). now rewrite Ma. }
    destruct (admission_frame c1 sa) as [Fc [Fm Fd]].
    rewrite A. split; [reflexivity|]. split; [exact Fd|].
    set (sb := sdk_addClient c2 (final (admission rt c1 sa))).
    assert (channel sb =
              Some {| clients := [hostc; c1; c2]; isConnected := conn |}) as Cb.
    { subst sb. rewrite Ca in Fc. now rewrite (sdk_addClient_channel c2 _ _ Fc). }
    apply (onClientConnect_denies rt c2 sb _ Cb).
    subst sb. now rewrite sdk_addClient_maxClients, Fm, Ma.
  - intros s2 ch c Hm Hc2.
    destruct (Z.ltb_spec 2 (Z.of_nat (List.length (clients ch)))) as [L|L].
    + split; [intros _; exact L|]. intros _.
      apply (onClientConnect_denies rt c s2 ch Hc2). rewrite Hm. cbn.
      now apply Z.ltb_lt.
    + split; [|lia]. intros D. exfalso.
      rewrite (onClientConnect_admits rt c s2 ch Hc2) in D.
      * destruct (admission_frame c s2) as [_ [_ F]]. apply F.
        rewrite D. cbn. right. now left.
      * rewrite Hm. cbn. now apply Z.ltb_ge.
Qed.

End Capacity.

(** *** Concrete runs *)

(** The protocol messages of a client on the deny-list of [crowded], now
    and after one more client has tried to join. *)
Lemma dispatch_rejects_forbidden_client_witness :
  dispatch tizen_tv "seek" (VObj [("position", VNum (Num 5))]) (mobile "b") crowded =
    {| result := Normal (VBool false); final := crowded;
       trace := [accessDenied "b"] |}
  /\ In "b" (forbiddenClients
               (final (step tizen_tv (ClientConnect (mobile "c")) crowded))).
Proof.
  pose proof (dispatch_rejects_forbidden_client tizen_tv eventCallbacks onSeek EvSeek
                (VObj [("position", VNum (Num 5))]) (mobile "b") crowded
                {| clients := [host; mobile "a"; mobile "b"]; isConnected := true |}
                eq_refl eq_refl (or_introl eq_refl) eq_refl) as [_ [H2 H3]].
  split; [exact H2|].
  apply (H3 (ClientConnect (mobile "c"))).
  - discriminate.
  - intros c' E. injection E as <-. discriminate.
  - discriminate.
Defined.

(** A third client joining the crowded channel. *)
Lemma onClientConnect_over_limit_witness :
  result (onClientConnect tizen_tv (mobile "c") crowded) = Normal tt
  /\ trace (onClientConnect tizen_tv (mobile "c") crowded) =
       [readyBroadcast; accessDenied "c"]
  /\ final (onClientConnect tizen_tv (mobile "c") crowded) =
       set_forbiddenClients ["b"; "c"] crowded
  /\ (forall f c',
         ~ In (CallWithClient f c') (trace (onClientConnect tizen_tv (mobile "c") crowded)))
  /\ videoId (final (onClientConnect tizen_tv (mobile "c") crowded)) = VNum (Num (-1))
  /\ clientCallbacks (final (onClientConnect tizen_tv (mobile "c") crowded)) = []
  /\ forbiddenClients (final (onClientConnect tizen_tv (mobile "c") crowded)) = ["b"; "c"].
Proof.
  apply (onClientConnect_over_limit tizen_tv (mobile "c") crowded
           {| clients := [host; mobile "a"; mobile "b"]; isConnected := true |} 2).
  - reflexivity.
  - reflexivity.
  - simpl. lia.
Defined.

(** The seek payload [{"position":0}] from an admitted client. *)
Lemma seek_notifies_iff_position_truthy_witness :
  admitted ready (mobile "a")
  /\ trace (dispatch tizen_tv "seek" (VStr seek_zero_text) (mobile "a") ready) = [].
Proof.
  assert (admitted ready (mobile "a")) as A by (left; reflexivity).
  split; [exact A|].
  apply (proj2 (proj2 (proj2
           (seek_notifies_iff_position_truthy tizen_tv (VStr seek_zero_text)
              (mobile "a") ready A)))).
  reflexivity.
Defined.

(** The volume payload [{"value":"-30"}] from an admitted client, and
    the payload [{value: 7}], a number. *)
Lemma volume_notification_witness :
  admitted ready (mobile "a")
  /\ trace (dispatch tizen_tv "volume" (VStr volume_minus30_text) (mobile "a") ready) =
       [ SetVolume (Num 30); SetMute true;
         DocumentDispatch "ms2:volume"
           (Some (VObj [("volume", VNum (Num 30)); ("isMute", VBool true)])) ]
  /\ safeInteger 7
  /\ trace (dispatch tizen_tv "volume" (VObj [("value", VNum (Num 7))]) (mobile "a")
              ready) =
       [ SetVolume (Num 7); SetMute false;
         DocumentDispatch "ms2:volume"
           (Some (VObj [("volume", VNum (Num 7)); ("isMute", VBool false)])) ].
Proof.
  assert (admitted ready (mobile "a")) as A by (left; reflexivity).
  assert (safeInteger 7) as S7 by (split; reflexivity).
  split; [exact A|]. split; [|split; [exact S7|]].
  - apply (proj2 (proj2 (volume_notification tizen_tv (VStr volume_minus30_text)
                           (mobile "a") ready A))).
    reflexivity.
  - apply (proj1 (proj2 (volume_notification tizen_tv (VObj [("value", VNum (Num 7))])
                           (mobile "a") ready A)) 7 S7).
    reflexivity.
Defined.

(** C7 (counterexample).  The sign and the level are read off the
    integer prefix, not off the value: ["-0.5"] is a negative number but
    sets level 0 with the mute off, and ["42px"] is no number but sets
    level 42. *)
Lemma volume_reads_the_integer_prefix :
  trace (dispatch tizen_tv "volume" (VObj [("value", VStr "-0.5")]) (mobile "a") ready) =
    [ SetVolume (Num 0); SetMute false;
      DocumentDispatch "ms2:volume"
        (Some (VObj [("volume", VNum (Num 0)); ("isMute", VBool false)])) ]
  /\ trace (dispatch tizen_tv "volume" (VObj [("value", VStr "42px")]) (mobile "a") ready) =
       [ SetVolume (Num 42); SetMute false;
         DocumentDispatch "ms2:volume"
           (Some (VObj [("volume", VNum (Num 42)); ("isMute", VBool false)])) ].
Proof.
  split; reflexivity.
Qed.

(** A text that is no JSON, sent as a seek message by an admitted client. *)
Lemma dispatch_malformed_payload_throws_witness :
  JSON_parse tizen_tv malformed_text = None
  /\ admitted ready (mobile "a")
  /\ dispatch tizen_tv "seek" (VStr malformed_text) (mobile "a") ready =
       {| result := Throw TypeError; final := ready; trace := [] |}.
Proof.
  assert (admitted ready (mobile "a")) as A by (left; reflexivity).
  split; [reflexivity|]. split; [exact A|].
  apply (proj1 (dispatch_malformed_payload_throws tizen_tv malformed_text
                  (mobile "a") ready eq_refl A) EvSeek).
  discriminate.
Defined.

(** [FastCast.error(FastCast.error.NO_SUCH_STREAM)]. *)
Lemma error_broadcasts_witness :
  error (Data (VNum error_NO_SUCH_STREAM)) ready =
    {| result := Normal tt; final := ready;
       trace := [Publish [Data (VStr "error");
                          Data (VObj [("message", VStr "No such stream");
                                      ("code", VNum (Num 404))])]] |}.
Proof.
  apply (proj1 (error_broadcasts (Data (VNum error_NO_SUCH_STREAM)) ready
                  {| clients := [host]; isConnected := false |} eq_refl)).
  intros n E. injection E as <-. right. right. reflexivity.
Defined.

(** C6 (counterexample).  [FastCast.error(3)]: the table has no entry 3,
    reading [errors[3].message] throws and no message is broadcast. *)
Lemma error_number_3_throws :
  error (Data (VNum (Num 3))) ready =
    {| result := Throw TypeError; final := ready; trace := [] |}
  /\ ~ (forall type : jsval, result (error type ready) = Normal tt).
Proof.
  split; [reflexivity|].
  intros H. specialize (H (Data (VNum (Num 3)))). discriminate.
Qed.

(** [connect({}, 1)] on a channel where only the host is present. *)
Lemma connect_1_admits_one_client_witness :
  let s1 := final (connect (Data (VObj [])) (Data (VNum (Num 1))) ready) in
  maxClients s1 = Num 2
  /\ onClientConnect tizen_tv (mobile "a") (sdk_addClient (mobile "a") s1) =
       admission tizen_tv (mobile "a") (sdk_addClient (mobile "a") s1)
  /\ onClientConnect tizen_tv (mobile "b")
       (sdk_addClient (mobile "b")
          (final (onClientConnect tizen_tv (mobile "a")
                    (sdk_addClient (mobile "a") s1)))) =
     denial (mobile "b")
       (sdk_addClient (mobile "b")
          (final (onClientConnect tizen_tv (mobile "a")
                    (sdk_addClient (mobile "a") s1)))).
Proof.
  pose proof (connect_1_admits_one_client tizen_tv ready host false eq_refl) as H.
  cbv zeta in H. destruct H as [Hm [Hj _]].
  destruct (Hj (mobile "a") (mobile "b")) as [Ha [_ Hb]].
  exact (conj Hm (conj Ha Hb)).
Defined.

(** C3 (counterexample).  After [connect({}, 1)] two clients join in turn.
    The first is admitted; the second one, not a third, is sent the 403
    and put on the deny-list. *)
Lemma connect_1_second_client_denied :
  let o := ((connect (Data (VObj [])) (Data (VNum (Num 1))) ;;
             clientJoins tizen_tv (mobile "a")) ;;
            clientJoins tizen_tv (mobile "b"))%js ready in
  result o = Normal tt
  /\ maxClients (final o) = Num 2
  /\ ~ In (accessDenied "a") (trace o)
  /\ In (accessDenied "b") (trace o)
  /\ forbiddenClients (final o) = ["b"].
Proof.
  vm_compute. repeat split.
  - intros H. repeat destruct H as [H|H]; try discriminate; exact H.
  - do 13 right. now left.
Qed.

(** C2 (what the code does).  After [connect({}, -1)] the flag
    [allowingAllClients] is set and [maxClients] is still 2.  The second
    client to join is nevertheless sent the 403 and put on the deny-list
    by the client-connect listener; its messages then pass the
    dispatcher, which does consult the flag. *)
Lemma allowAll_connect_still_denies :
  let s1 := final (connect (Data (VObj [])) (Data (VNum (Num (-1)))) ready) in
  let o := (clientJoins tizen_tv (mobile "a") ;; clientJoins tizen_tv (mobile "b"))%js s1 in
  allowingAllClients s1 = true
  /\ maxClients s1 = Num 2
  /\ In (accessDenied "b") (trace o)
  /\ forbiddenClients (final o) = ["b"]
  /\ trace (dispatch tizen_tv "reclaim" VNull (mobile "b") (final o)) =
       [DocumentDispatch "ms2:reclaim" None].
Proof.
  vm_compute. repeat split. do 2 right. now left.
Qed.

(** *** More concrete runs *)

Example parseInt_minus30 : parseInt (VStr "-30") = Some (Num (-30)).
Proof. reflexivity. Qed.

Example parseInt_prefix : parseInt (VStr "  42px") = Some (Num 42).
Proof. reflexivity. Qed.

Example parseInt_undefined : parseInt VUndefined = Some NaN.
Proof. reflexivity. Qed.

Example parseInt_array : parseInt (VArr [VStr "12"; VNull]) = Some (Num 12).
Proof. reflexivity. Qed.

Example parseInt_unconvertible :
  parseInt (VObj [("toString", VNum (Num 1))]) = None.
Proof. reflexivity. Qed.

Example json_parse_volume :
  json_parse volume_minus30_text = Some (VObj [("value", VStr "-30")]).
Proof. reflexivity. Qed.

Example json_parse_seek :
  json_parse seek_zero_text = Some (VObj [("position", VNum (Num 0))]).
Proof. reflexivity. Qed.

Example json_parse_malformed : json_parse malformed_text = None.
Proof. reflexivity. Qed.

Example json_parse_nested :
  json_parse "[1, {}, [null, true], -7]" =
    Some (VArr [VNum (Num 1); VObj []; VArr [VNull; VBool true]; VNum (Num (-7))]).
Proof. reflexivity. Qed.

(** [{"keycode":"Enter"}] resolves to code 13 and one synthetic key press. *)
Example keydown_Enter :
  dispatch tizen_tv "keydown" (VObj [("keycode", VStr "Enter")]) (mobile "a") ready =
    {| result := Normal VUndefined;
       final := set_global_keycode (Some (KeyValue (VNum (Num 13)))) ready;
       trace := [KeydownEvent None (KeyValue (VNum (Num 13)))] |}.
Proof. reflexivity. Qed.

(** A key name the table does not hold, before any key has been resolved:
    the handler reads the name [keycode] that nothing has assigned. *)
Example keydown_unknown_name :
  result (dispatch tizen_tv "keydown" (VObj [("keycode", VStr "Foo")]) (mobile "a") ready)
    = Throw ReferenceError.
Proof. reflexivity. Qed.

(** The integer read from ["-0.5"] is zero: level 0, not muted. *)
Example volume_minus_half :
  trace (dispatch tizen_tv "volume" (VObj [("value", VStr "-0.5")]) (mobile "a") ready)
    = [SetVolume (Num 0); SetMute false; volumeNotification 0].
Proof. reflexivity. Qed.

(** [{"position":1500}] is announced to the application. *)
Example seek_1500 :
  trace (dispatch tizen_tv "seek" (VObj [("position", VNum (Num 1500))]) (mobile "a") ready)
    = [seekNotification (VNum (Num 1500))].
Proof. reflexivity. Qed.

(** A play message updates the current video and is announced. *)
Example play_updates_videoId :
  let o := dispatch tizen_tv "play"
             (VObj [("videoId", VNum (Num 7)); ("position", VNum (Num 0))])
             (mobile "a") ready in
  videoId (final o) = VNum (Num 7)
  /\ trace o =
       [DocumentDispatch "ms2:play"
          (Some (VObj [("videoId", VNum (Num 7)); ("position", VNum (Num 0))]))].
Proof. split; reflexivity. Qed.

(** The disconnect that brings the crowded channel back under its limit
    empties the deny-list. *)
Example disconnect_clears :
  forbiddenClients
    (final (onClientDisconnect (mobile "a")
              (set_channel
                 (Some {| clients := [host; mobile "b"]; isConnected := true |})
                 crowded))) = [].
Proof. reflexivity. Qed.

(** [on("play", f)] is refused; [on("myChannelMsg", f)] is registered. *)
Example on_play_refused :
  result (on (Data (VStr "play")) (Func 0) ready) = Normal (VBool false).
Proof. reflexivity. Qed.

Example on_custom_registered :
  trace (on (Data (VStr "myChannelMsg")) (Func 0) ready) =
    [ChannelOn (Data (VStr "myChannelMsg")) (LUser 0)].
Proof. reflexivity. Qed.

(** The public operations before [init]: the channel handle is [null]. *)
Example error_before_init :
  result (error (Data (VStr "General error.")) (initial tizen_tv)) = Throw TypeError.
Proof. reflexivity. Qed.

(** ** Further properties of the module *)

(** *** Key presses *)

Section Keydown.

Variable rt : Runtime.

Lemma keyPress_run (s : state) (k : keyval) :
  returning VUndefined (sendKeydownEvent k) s = keyPress s k.
Proof.
  unfold keyPress, sendKeydownEvent.
  destruct (eventBus s) as [[| | | | | |]|f|el] eqn:E;
    unfold_monad; rewrite E; reflexivity.
Qed.

(** The key handler, once the key name has been read off the payload. *)
Lemma onKeydown_run (parsed kc : value) (key : string) (s : state) :
  getProp parsed "keycode" = Some kc ->
  truthy kc = true ->
  toString kc = Some key ->
  returning VUndefined (onKeydown parsed) s =
    if truthyK (tvKeys_at s key) then
      keyPress (set_global_keycode (Some (tvKeys_at s key)) s) (tvKeys_at s key)
    else if String.eqb (typeof kc) "number" then
      keyPress (set_global_keycode (Some (KeyValue kc)) s) (KeyValue kc)
    else
      match global_keycode s with
      | Some k => keyPress s k
      | None => {| result := Throw ReferenceError; final := s; trace := [] |}
      end.
Proof.
  intros Hk Ht Hs.
  unfold onKeydown, sendKeydownEvent, returning, keyPress. rewrite Hk.
  destruct (truthyK (tvKeys_at s key)) eqn:T;
    [| destruct (String.eqb (typeof kc) "number") eqn:N;
       [| destruct (global_keycode s) eqn:G] ];
    unfold_monad; rewrite Ht, Hs; cbn; rewrite T; cbn; rewrite ?N; cbn;
    rewrite ?G; cbn; try reflexivity;
    destruct (eventBus s) as [[| | | | | |]|f|el]; reflexivity.
Qed.

(** A key the table holds with a truthy code is pressed with that code:
    on the event bus when one was given, on the focused element when the
    bus is [null]; the code is also left in the global [keycode]. *)
Theorem keydown_table_key
  (obj kc : value) (key : string) (n : number) (c : client) (s : state) :
  admitted s c ->
  getProp (parsePayload rt obj) "keycode" = Some kc ->
  truthy kc = true ->
  toString kc = Some key ->
  assoc key (tvKeys s) = Some n ->
  truthy (VNum n) = true ->
  dispatch rt "keydown" obj c s =
    keyPress (set_global_keycode (Some (KeyValue (VNum n))) s) (KeyValue (VNum n)).
Proof.
  intros Hadm Hk Ht Hs Ha Hn. unfold dispatch.
  rewrite (dispatchWith_admitted rt eventCallbacks onKeydown "keydown" obj c s
             Hadm eq_refl).
  rewrite (onKeydown_run _ kc key s Hk Ht Hs).
  unfold tvKeys_at. rewrite Ha. cbn [truthyK]. now rewrite Hn.
Qed.

Lemma Z_to_string_head (z : Z) :
  exists c r, Z_to_string z = String c r
              /\ (c = "-"%char \/ digitValue c <> None).
Proof.
  unfold Z_to_string. destruct z as [|p|p]; cbn [Z.to_int NilZero.string_of_int].
  - exists "0"%char, EmptyString. split; [reflexivity|]. right. discriminate.
  - pose proof (DecimalPos.Unsigned.to_uint_nonnil p) as N.
    rewrite (NilZero_string_of_uint _ N).
    destruct (Pos.to_uint p); try congruence; cbn;
      eexists; eexists; (split; [reflexivity|]); right; discriminate.
  - eexists; eexists. split; [reflexivity|]. now left.
Qed.

(** No decimal numeral is the name of a member of [Object.prototype]. *)
Lemma Z_to_string_not_inherited (z : Z) :
  existsb (String.eqb (Z_to_string z)) objectPrototype = false.
Proof.
  destruct (Z_to_string_head z) as [c [r [E H]]]. rewrite E.
  destruct H as [-> | H]; [reflexivity|].
  destruct c as [[|] [|] [|] [|] [|] [|] [|] [|]];
    try reflexivity; exfalso; apply H; reflexivity.
Qed.

(** A numeric key code that is no key of the table passes through
    unchanged. *)
Theorem keydown_numeric_code
  (obj : value) (z : Z) (c : client) (s : state) :
  admitted s c ->
  getProp (parsePayload rt obj) "keycode" = Some (VNum (Num z)) ->
  z <> 0 ->
  assoc (Z_to_string z) (tvKeys s) = None ->
  dispatch rt "keydown" obj c s =
    keyPress (set_global_keycode (Some (KeyValue (VNum (Num z)))) s)
             (KeyValue (VNum (Num z))).
Proof.
  intros Hadm Hk Hz Ha. unfold dispatch.
  rewrite (dispatchWith_admitted rt eventCallbacks onKeydown "keydown" obj c s
             Hadm eq_refl).
  rewrite (onKeydown_run _ (VNum (Num z)) (Z_to_string z) s Hk).
  - unfold tvKeys_at. rewrite Ha, Z_to_string_not_inherited. reflexivity.
  - cbn. now apply negb_true_iff, Z.eqb_neq.
  - reflexivity.
Qed.

(** A key name that resolves to nothing (not in the table, not a number)
    does not stop the handler: it presses again the key code the last
    resolved message left in the global [keycode], and throws a
    ReferenceError when no message has resolved one yet. *)
Theorem keydown_unresolved_name_repeats_last_key
  (obj kc : value) (key : string) (c : client) (s : state) :
  admitted s c ->
  getProp (parsePayload rt obj) "keycode" = Some kc ->
  truthy kc = true ->
  toString kc = Some key ->
  truthyK (tvKeys_at s key) = false ->
  typeof kc <> "number" ->
  dispatch rt "keydown" obj c s =
    match global_keycode s with
    | Some last => keyPress s last
    | None => {| result := Throw ReferenceError; final := s; trace := [] |}
    end.
Proof.
  intros Hadm Hk Ht Hs Hf Hn. unfold dispatch.
  rewrite (dispatchWith_admitted rt eventCallbacks onKeydown "keydown" obj c s
             Hadm eq_refl).
  rewrite (onKeydown_run _ kc key s Hk Ht Hs). rewrite Hf.
  destruct (String.eqb_spec (typeof kc) "number") as [E|E]; [contradiction|].
  reflexivity.
Qed.

End Keydown.

(** *** Play messages, in and out *)

Section PlayAndStatus.

Variable rt : Runtime.

Lemma onPlay_run (parsed : value) (s : state) :
  onPlay parsed s =
    match getProp parsed "videoId", getProp parsed "position", getProp parsed "data" with
    | Some vid, Some position, Some data =>
        if truthy vid then
          {| result := Normal tt; final := set_videoId vid s;
             trace := [DocumentDispatch "ms2:play" (Some (playParams vid position data))] |}
        else {| result := Normal tt; final := s; trace := [] |}
    | _, _, _ => {| result := Throw TypeError; final := s; trace := [] |}
    end.
Proof.
  unfold onPlay, playParams.
  destruct parsed as [| |b|n|str|items|fields]; try reflexivity;
    cbn [getProp]; unfold_monad; try reflexivity.
  destruct (assoc "videoId" fields) as [vid|]; destruct (assoc "position" fields);
    destruct (assoc "data" fields) as [d|]; cbn;
    try destruct (truthy vid); cbn; try destruct (truthy d); reflexivity.
Qed.

(** A play message from an admitted client with a truthy [videoId]
    makes that id the current video and announces one [ms2:play] carrying
    [{videoId, position}], with [data] added only when it is truthy; with
    a falsy [videoId] (0 included) the message is ignored altogether.
    Nothing but [videoId] is written. *)
Theorem play_message_updates_video (obj : value) (c : client) (s : state) :
  admitted s c ->
  let o := dispatch rt "play" obj c s in
  let parsed := parsePayload rt obj in
  match getProp parsed "videoId", getProp parsed "position", getProp parsed "data" with
  | Some vid, Some position, Some data =>
      if truthy vid then
        o = {| result := Normal VUndefined; final := set_videoId vid s;
               trace := [DocumentDispatch "ms2:play"
                           (Some (playParams vid position data))] |}
      else o = {| result := Normal VUndefined; final := s; trace := [] |}
  | _, _, _ => o = {| result := Throw TypeError; final := s; trace := [] |}
  end.
Proof.
  intros Hadm o parsed. subst o parsed. unfold dispatch.
  rewrite (dispatchWith_admitted rt eventCallbacks onPlay "play" obj c s Hadm eq_refl).
  unfold returning, bind. rewrite onPlay_run.
  destruct (getProp (parsePayload rt obj) "videoId") as [vid|]; [|reflexivity].
  destruct (getProp (parsePayload rt obj) "position"); [|reflexivity].
  destruct (getProp (parsePayload rt obj) "data"); [|reflexivity].
  destruct (truthy vid); reflexivity.
Qed.

(** What one TV broadcasts with [play] is what the play handler of a
    receiver announces: the same parameters object, and the same video
    id becomes current there.  A falsy video id is broadcast all the same
    but dropped by the receiver. *)
Theorem play_broadcast_is_received
  (vid position data : value) (sender receiver : state) (ch : channelT) (c : client) :
  channel sender = Some ch ->
  admitted receiver c ->
  play vid position data sender =
    {| result := Normal tt; final := sender;
       trace := [Publish [Data (VStr "play"); Data (playParams vid position data)]] |}
  /\ dispatch rt "play" (playParams vid position data) c receiver =
       if truthy vid then
         {| result := Normal VUndefined; final := set_videoId vid receiver;
            trace := [DocumentDispatch "ms2:play"
                        (Some (playParams vid position data))] |}
       else {| result := Normal VUndefined; final := receiver; trace := [] |}.
Proof.
  intros Hch Hadm. split.
  - unfold play, playParams.
    destruct (truthy data); now rewrite (send_connected _ sender ch Hch).
  - unfold dispatch.
    rewrite (dispatchWith_admitted rt eventCallbacks onPlay "play" _ c receiver
               Hadm eq_refl).
    unfold returning, bind. rewrite onPlay_run.
    assert (parsePayload rt (playParams vid position data)
            = playParams vid position data) as P by reflexivity.
    rewrite P. unfold playParams at 1 2 3.
    destruct (truthy data) eqn:D; cbn [getProp assoc app String.eqb Ascii.eqb Bool.eqb];
      destruct (truthy vid); try reflexivity;
      unfold playParams; rewrite ?D; reflexivity.
Qed.

(** *** Status *)

(** [sendStatus] publishes the object it is given as JSON text; without
    one it publishes the status it builds from the platform, in which a
    muted TV reports its level negated.  That encoding is the one the
    volume handler reads: fed back as a volume message it restores the
    level and the mute flag, except that mute at level 0 is lost.  The
    level is a safe integer, so that it is read back digit for digit. *)
Theorem status_volume_round_trip
  (statusObj : value) (s s' : state) (ch : channelT) (v : Z) (c : client) :
  channel s = Some ch ->
  tvaudiocontrol_getVolume rt = Num v ->
  0 <= v ->
  safeInteger v ->
  admitted s' c ->
  sendStatus rt statusObj s =
    {| result := Normal tt; final := s;
       trace := [Publish [Data (VStr "status");
                          Data (VStr (JSON_stringify rt
                                        (if truthy statusObj then statusObj
                                         else autoStatus rt s)))]] |}
  /\ exists level,
       getProp (autoStatus rt s) "volume" = Some level
       /\ trace (dispatch rt "volume" (VObj [("value", level)]) c s') =
            [ SetVolume (Num v);
              SetMute (tvaudiocontrol_isMute rt && negb (v =? 0));
              DocumentDispatch "ms2:volume"
                (Some (VObj [("volume", VNum (Num v));
                             ("isMute",
                              VBool (tvaudiocontrol_isMute rt && negb (v =? 0)))])) ].
Proof.
  intros Hch Hv Hpos _ Hadm. split.
  - unfold sendStatus, autoStatus.
    rewrite (bind_Normal _ _ _ _ _ _ (get_run s)).
    destruct (truthy statusObj); now rewrite (send_connected _ s ch Hch).
  - unfold autoStatus. cbn [getProp assoc String.eqb Ascii.eqb Bool.eqb].
    eexists. split; [reflexivity|].
    unfold dispatch.
    rewrite (dispatchWith_admitted rt eventCallbacks onVolume "volume" _ c s'
               Hadm eq_refl).
    unfold returning, bind. rewrite onVolume_run.
    cbn [parsePayload getProp assoc String.eqb Ascii.eqb Bool.eqb].
    rewrite Hv. destruct (tvaudiocontrol_isMute rt); cbn [num_neg andb];
      rewrite parseInt_number; cbn [result final trace app];
      unfold volumeNotification, volumeDetail.
    + replace (Z.abs (0 - v)) with v by lia.
      replace (0 - v <? 0) with (negb (v =? 0)); [reflexivity|].
      destruct (Z.eqb_spec v 0); destruct (Z.ltb_spec (0 - v) 0); cbn; lia || reflexivity.
    + replace (Z.abs v) with v by lia.
      replace (v <? 0) with false; [reflexivity|].
      symmetry. apply Z.ltb_ge. lia.
Qed.

End PlayAndStatus.

(** *** The life cycle of the channel handle *)

Section LifeCycle.

Variable rt : Runtime.

(** [init] never throws and never touches the channel handle or the
    admission state: it either gives up with at most a console message,
    leaving every variable as it was, or sets the event bus and asks the
    SDK for the local service.  It goes on exactly when the SDK is
    loaded, the current channel (if any) is not connected, and the name
    is a non-empty string. *)
Theorem init_gives_up_or_resolves (chanName eb callback : jsval) (s : state) :
  let o := init rt chanName eb callback s in
  let good :=
    msf_loaded rt = true
    /\ (match channel s with Some ch => isConnected ch | None => false end) = false
    /\ exists name, chanName = Data (VStr name) /\ name <> "" in
  result o = Normal tt
  /\ channel (final o) = channel s
  /\ maxClients (final o) = maxClients s
  /\ forbiddenClients (final o) = forbiddenClients s
  /\ allowingAllClients (final o) = allowingAllClients s
  /\ (good ->
      exists name bus cb,
        chanName = Data (VStr name)
        /\ final o = set_eventBus bus s
        /\ trace o = [MsfLocal name cb])
  /\ (~ good ->
      final o = s
      /\ (trace o = [] \/ exists msg, trace o = [Console "error" msg])).
Proof.
  intros o good. subst o good. unfold init.
  remember (match channel s with Some ch => isConnected ch | None => false end)
    as conn eqn:C.
  assert (forall P : Prop,
             (msf_loaded rt = true /\ conn = false
              /\ exists name, chanName = Data (VStr name) /\ name <> "") ->
             (msf_loaded rt = false \/ conn = true
              \/ (forall name, chanName = Data (VStr name) -> name = "")) -> P) as No.
  { intros P [L [C0 [name [E N]]]] [L' | [C' | N']]; try congruence.
    exfalso. apply N. now apply N'. }
  destruct (msf_loaded rt) eqn:L; cbn [negb].
  2:{ unfold_monad. do 5 (split; [reflexivity|]). split.
      - intros G. apply (No _ G). now left.
      - intros _. split; [reflexivity|]. right. eexists. reflexivity. }
  rewrite (bind_Normal _ _ _ _ _ _ (get_run s)). cbn [app]. rewrite <- C.
  destruct conn.
  { unfold_monad. do 5 (split; [reflexivity|]). split.
    - intros G. apply (No _ G). right. now left.
    - intros _. split; [reflexivity|]. now left. }
  destruct chanName as [[| | | |name| |]|f|el];
    try (unfold_monad; do 5 (split; [reflexivity|]); split;
         [ intros G; apply (No _ G); right; right; intros nm Enm; discriminate
         | intros _; split; [reflexivity|]; right; eexists; reflexivity ]).
  destruct (String.eqb_spec name "") as [E|E].
  - unfold_monad. do 5 (split; [reflexivity|]). split.
    + intros G. apply (No _ G). right. right. intros nm Enm. now injection Enm as <-.
    + intros _. split; [reflexivity|]. right. eexists. reflexivity.
  - destruct (String.eqb (typeofJ eb) "function"); unfold_monad;
      do 5 (split; [reflexivity|]); (split;
        [ intros _; eexists; eexists; eexists; repeat split; reflexivity
        | intros H; exfalso; apply H; repeat split;
          exists name; split; [reflexivity | exact E] ]).
Qed.

Lemma init_sets_eventBus (name : string) (eb callback : jsval) (s : state) :
  msf_loaded rt = true ->
  (match channel s with Some ch => isConnected ch | None => false end) = false ->
  name <> "" ->
  final (init rt (Data (VStr name)) eb callback s) =
    set_eventBus (if String.eqb (typeofJ eb) "function" then Data VNull else eb) s.
Proof.
  intros L C N. unfold init. rewrite L. cbn [negb].
  rewrite (bind_Normal _ _ _ _ _ _ (get_run s)). rewrite C.
  destruct (String.eqb_spec name "") as [E|E]; [contradiction|].
  destruct (String.eqb (typeofJ eb) "function"); reflexivity.
Qed.

(** Where key presses go depends on how [init] was called.  With an
    element as event bus they go to it; with a callback in second place,
    or an explicit [null], they go to the focused element.  When [init]
    is given the channel name alone, the event bus is left [undefined],
    which is not [null]: every key press then throws a TypeError and no
    key event is dispatched. *)
Theorem keydown_target_after_init
  (name : string) (eb callback : jsval) (obj kc : value) (key : string)
  (n : number) (c : client) (s : state) :
  msf_loaded rt = true ->
  (match channel s with Some ch => isConnected ch | None => false end) = false ->
  name <> "" ->
  admitted s c ->
  getProp (parsePayload rt obj) "keycode" = Some kc ->
  truthy kc = true ->
  toString kc = Some key ->
  assoc key (tvKeys s) = Some n ->
  truthy (VNum n) = true ->
  let s1 := final (init rt (Data (VStr name)) eb callback s) in
  let pressed := set_global_keycode (Some (KeyValue (VNum n))) s1 in
  dispatch rt "keydown" obj c s1 =
    match eb with
    | Func _ | Data VNull =>
        {| result := Normal VUndefined; final := pressed;
           trace := [KeydownEvent None (KeyValue (VNum n))] |}
    | Element el =>
        {| result := Normal VUndefined; final := pressed;
           trace := [KeydownEvent (Some el) (KeyValue (VNum n))] |}
    | Data _ => {| result := Throw TypeError; final := pressed; trace := [] |}
    end.
Proof.
  intros L C N Hadm Hk Ht Hs Ha Hn s1 pressed. subst pressed s1.
  rewrite (init_sets_eventBus name eb callback s L C N).
  set (s1 := set_eventBus _ s).
  assert (admitted s1 c) as Hadm1 by exact Hadm.
  unfold dispatch.
  rewrite (dispatchWith_admitted rt eventCallbacks onKeydown "keydown" obj c s1
             Hadm1 eq_refl).
  rewrite (onKeydown_run _ kc key s1 Hk Ht Hs).
  unfold tvKeys_at. change (tvKeys s1) with (tvKeys s). rewrite Ha.
  cbn [truthyK]. rewrite Hn. unfold keyPress. subst s1.
  destruct eb as [[| | | | | |]|f|el]; reflexivity.
Qed.

(** [deinit] disconnects and drops the handle, and nothing else: the
    client limit, the deny-list, the allow-all flag, the current video and
    the registered callbacks all survive into the next session.  A second
    [deinit] finds no handle and throws. *)
Theorem deinit_keeps_admission_state
  (s : state) (ch ch' : channelT) (callback : jsval) :
  channel s = Some ch ->
  deinit s =
    {| result := Normal tt; final := set_channel None s; trace := [ChannelDisconnect] |}
  /\ deinit (final (deinit s)) =
       {| result := Throw TypeError; final := set_channel None s; trace := [] |}
  /\ final (init_resolved callback VNull ch' (final (deinit s))) =
       set_channel (Some ch') s.
Proof.
  intros Hch.
  assert (deinit s =
            {| result := Normal tt; final := set_channel None s;
               trace := [ChannelDisconnect] |}) as D.
  { unfold deinit. unfold_monad. rewrite Hch. reflexivity. }
  rewrite D. cbn [final]. repeat split.
  destruct callback; reflexivity.
Qed.

(** Without a channel handle (before [init] has resolved, after
    [deinit]) every operation and listener that talks to the channel
    throws a TypeError, sends nothing and changes nothing. *)
Theorem operations_need_the_channel (o : op) (s : state) :
  channel s = None ->
  needsChannel o = true ->
  step rt o s = {| result := Throw TypeError; final := s; trace := [] |}.
Proof.
  intros Hch Hn.
  destruct o; try discriminate Hn; cbn [step needsChannel] in *;
    unfold returning.
  - unfold deinit. unfold_monad. now rewrite Hch.
  - unfold bind. now rewrite (send_no_channel _ s Hch).
  - unfold play. unfold bind.
    destruct (truthy data); now rewrite (send_no_channel _ s Hch).
  - unfold sendStatus. unfold_monad. unfold send. unfold_monad.
    rewrite Hch. reflexivity.
  - unfold error, send.
    destruct type as [[| | |n|str| |]|f|el];
      try (unfold_monad; rewrite Hch; reflexivity).
    destruct (errors_at n); unfold_monad; rewrite ?Hch; reflexivity.
  - unfold on, channel_on. rewrite (negb_true_iff _) in Hn. rewrite Hn.
    unfold_monad. now rewrite Hch.
  - unfold onChannelConnect. rewrite (negb_true_iff _) in Hn. rewrite Hn.
    unfold_monad. now rewrite Hch.
  - unfold bind. now rewrite (onClientConnect_no_channel rt c s Hch).
  - unfold onClientDisconnect. unfold_monad. now rewrite Hch.
  - unfold onVisibilityChange, bind.
    destruct hidden; now rewrite (send_no_channel _ s Hch).
Qed.

(** [connect] is the exception: called without a channel handle it
    throws at the first registration, but it has written the client
    limit (or the allow-all flag) by then.  The requested limit is a safe
    integer, whose successor is exact. *)
Theorem connect_without_channel_still_sets_limit
  (fields : list (string * value)) (n : Z) (s : state) :
  channel s = None ->
  safeInteger n ->
  let o := connect (Data (VObj fields)) (Data (VNum (Num n))) s in
  result o = Throw TypeError
  /\ trace o = []
  /\ final o = (if n <? 0 then set_allowingAllClients true s
                else set_maxClients (Num (n + 1)) s).
Proof.
  intros Hch _ o. subst o. split; [|split; [|apply connect_final]].
  - unfold connect, channel_on, onVisibilityChangeHandle.
    cbn [typeofJ typeof String.eqb Ascii.eqb Bool.eqb num_lt num_add].
    destruct (assoc "name" fields) as [nm|]; [destruct (truthy nm)|];
      destruct (n <? 0);
      repeat (first [rewrite Hch | progress unfold_monad]); reflexivity.
  - unfold connect, channel_on, onVisibilityChangeHandle.
    cbn [typeofJ typeof String.eqb Ascii.eqb Bool.eqb num_lt num_add].
    destruct (assoc "name" fields) as [nm|]; [destruct (truthy nm)|];
      destruct (n <? 0);
      repeat (first [rewrite Hch | progress unfold_monad]); reflexivity.
Qed.

End LifeCycle.

(** *** Connecting *)

Section Connecting.

Variable rt : Runtime.

Lemma assoc_set_same {A} (k : string) (a : A) (l : list (string * A)) :
  assoc k (assoc_set k a l) = Some a.
Proof.
  induction l as [|[k' a'] r IH]; cbn.
  - now rewrite String.eqb_refl.
  - destruct (String.eqb_spec k k') as [E|E]; cbn.
    + now rewrite String.eqb_refl.
    + destruct (String.eqb_spec k k'); [contradiction | exact IH].
Qed.

Lemma assoc_set_other {A} (k k' : string) (a : A) (l : list (string * A)) :
  k' <> k -> assoc k' (assoc_set k a l) = assoc k' l.
Proof.
  intros N. induction l as [|[k0 a0] r IH]; cbn.
  - destruct (String.eqb_spec k' k); [contradiction | reflexivity].
  - destruct (String.eqb_spec k k0) as [E|E]; cbn.
    + subst k0. destruct (String.eqb_spec k' k); [contradiction | reflexivity].
    + destruct (String.eqb_spec k' k0); [reflexivity | exact IH].
Qed.

(** The options [connect] hands to the SDK for an object literal. *)
Lemma connect_run (fields : list (string * value)) (maximumClients : jsval)
  (s : state) (ch : channelT) :
  channel s = Some ch ->
  exists fields',
    trace (connect (Data (VObj fields)) maximumClients s) =
      (registrations ++ [ChannelConnect (Data (VObj fields')); AddVisibilityListener])%list
    /\ result (connect (Data (VObj fields)) maximumClients s) = Normal tt
    /\ fields' =
         match assoc "name" fields with
         | Some nm => if truthy nm then fields
                      else assoc_set "name" (VStr ownName) fields
         | None => assoc_set "name" (VStr ownName) fields
         end.
Proof.
  intros Hch. eexists. split; [|split; [|reflexivity]];
    unfold connect, channel_on, onVisibilityChangeHandle, registrations;
    cbn [typeofJ typeof String.eqb Ascii.eqb Bool.eqb];
    (destruct (assoc "name" fields) as [nm|]; [destruct (truthy nm)|]);
    (destruct maximumClients as [[| | |[|n]| | |]|f|el];
       cbn [num_lt num_add]; try destruct (n <? 0));
    repeat (first [rewrite Hch | progress unfold_monad]); reflexivity.
Qed.

Lemma bind_trace {A B} (m : M A) (k : A -> M B) (s : state) (a : A) :
  result (m s) = Normal a ->
  trace (bind m k s) = (trace (m s) ++ trace (k a (final (m s))))%list.
Proof.
  intros H. unfold bind. destruct (m s) as [r s1 t1]. cbn in *. subst r.
  now destruct (k a s1).
Qed.

Lemma preserves_connect_channel (prop maximumClients : jsval) :
  preserves channel (connect prop maximumClients).
Proof.
  unfold connect, channel_on, onVisibilityChangeHandle, theChannel. frame.
Qed.

(** With a channel handle, [connect] with an object literal returns
    normally after registering its nine listeners, connecting, and
    adding one visibility listener, in this order.  The options it
    connects with always carry a truthy [name]: the caller's, or "TV" in
    place of a missing or falsy one; every other property is the
    caller's.  Nothing is deduplicated: after a second call two
    visibility listeners are installed. *)
Theorem connect_registers_and_names
  (fields : list (string * value)) (maximumClients : jsval)
  (s : state) (ch : channelT) :
  channel s = Some ch ->
  let o := connect (Data (VObj fields)) maximumClients s in
  result o = Normal tt
  /\ (exists options,
        trace o =
          (registrations
             ++ [ChannelConnect (Data (VObj options)); AddVisibilityListener])%list
        /\ (exists nm, assoc "name" options = Some nm /\ truthy nm = true)
        /\ (forall nm, assoc "name" fields = Some nm -> truthy nm = true ->
                       options = fields)
        /\ (forall k, k <> "name" -> assoc k options = assoc k fields))
  /\ forall fields2 m2,
       List.length
         (filter isVisibilityListener
            (trace ((connect (Data (VObj fields)) maximumClients ;;
                     connect (Data (VObj fields2)) m2)%js s))) = 2%nat.
Proof.
  intros Hch o. subst o.
  destruct (connect_run fields maximumClients s ch Hch) as [opts [T [R E]]].
  split; [exact R|]. split.
  - exists opts. split; [exact T|]. subst opts.
    destruct (assoc "name" fields) as [nm|] eqn:A.
    + destruct (truthy nm) eqn:Tn.
      * split; [now exists nm|]. split; [reflexivity|reflexivity].
      * split; [|split].
        -- exists (VStr ownName). split; [apply assoc_set_same | reflexivity].
        -- intros nm' H. injection H as <-. congruence.
        -- intros k N. now apply assoc_set_other.
    + split; [|split].
      * exists (VStr ownName). split; [apply assoc_set_same | reflexivity].
      * discriminate.
      * intros k N. now apply assoc_set_other.
  - intros fields2 m2.
    rewrite (bind_trace _ _ s tt R).
    pose proof (preserves_connect_channel (Data (VObj fields)) maximumClients s) as P.
    rewrite Hch in P.
    destruct (connect_run fields2 m2 _ ch P) as [opts2 [T2 _]].
    rewrite T, T2, !filter_app. unfold registrations. reflexivity.
Qed.

(** A number in first place is the client limit, whatever comes second:
    the limit (a safe integer) is stored plus one for the host, a negative
    one sets the allow-all flag instead, and the TV connects under its own
    name. *)
Theorem connect_number_in_first_place
  (n : Z) (second : jsval) (s : state) (ch : channelT) :
  channel s = Some ch ->
  safeInteger n ->
  connect (Data (VNum (Num n))) second s =
    {| result := Normal tt;
       final := (if n <? 0 then set_allowingAllClients true s
                 else set_maxClients (Num (n + 1)) s);
       trace := (registrations
                   ++ [ChannelConnect (Data (VObj [("name", VStr "TV")]));
                       AddVisibilityListener])%list |}.
Proof.
  intros Hch _. unfold connect, channel_on, onVisibilityChangeHandle, registrations.
  cbn [typeofJ typeof String.eqb Ascii.eqb Bool.eqb num_lt num_add].
  destruct (n <? 0);
    repeat (first [rewrite Hch | progress unfold_monad]); reflexivity.
Qed.

End Connecting.

(** *** The callbacks of the application *)

Section Callbacks.

Variable rt : Runtime.

Lemma clientCallback_set_same (event : string) (cb : jsval) (s : state) :
  clientCallback (final (setCallback event cb s)) event = cb.
Proof.
  unfold clientCallback, setCallback, modify. cbn. now rewrite assoc_set_same.
Qed.

Lemma clientCallback_set_other (event other : string) (cb : jsval) (s : state) :
  other <> event ->
  clientCallback (final (setCallback event cb s)) other = clientCallback s other.
Proof.
  intros N. unfold clientCallback, setCallback, modify. cbn.
  now rewrite (assoc_set_other event other cb _ N).
Qed.

(** Registering a connect handler and then admitting a client: the
    handler registered last is the one called, once, with that client,
    after the "ready" broadcast; what it returns becomes the current
    video when truthy and is dropped otherwise.  The disconnect handler
    is a separate slot: registering one does not replace the other. *)
Theorem connect_callback_last_registration_wins
  (first second other : jsval) (f : nat) (c : client) (s : state) (ch : channelT) :
  channel s = Some ch ->
  num_lt (maxClients s) (Num (Z.of_nat (List.length (clients ch)))) = false ->
  second = Func f ->
  let s1 := final ((setCallback "connect" first ;;
                    setCallback "connect" second ;;
                    setCallback "disconnect" other)%js s) in
  let o := onClientConnect rt c s1 in
  result o = Normal tt
  /\ trace o = [readyBroadcast; CallWithClient f c]
  /\ videoId (final o) =
       (if truthy (callback_result rt f c) then callback_result rt f c
        else videoId s)
  /\ clientCallback s1 "disconnect" = other.
Proof.
  intros Hch Hlt -> s1 o.
  assert (s1 = final (setCallback "disconnect" other
                        (final (setCallback "connect" (Func f)
                                  (final (setCallback "connect" first s)))))) as E1
      by reflexivity.
  assert (clientCallback s1 "connect" = Func f) as Cc.
  { rewrite E1, clientCallback_set_other by discriminate.
    apply clientCallback_set_same. }
  assert (clientCallback s1 "disconnect" = other) as Cd.
  { rewrite E1. apply clientCallback_set_same. }
  assert (channel s1 = Some ch) as Hch1 by exact Hch.
  assert (num_lt (maxClients s1) (Num (Z.of_nat (List.length (clients ch)))) = false)
    as Hlt1 by exact Hlt.
  subst o. rewrite (onClientConnect_admits rt c s1 ch Hch1 Hlt1).
  unfold admission. rewrite Cc. cbn [result trace final].
  split; [reflexivity|]. split; [reflexivity|]. split; [|exact Cd].
  destruct (truthy (callback_result rt f c));
    destruct (-1 <? indexOf (forbiddenClients s1) (id c)); reflexivity.
Qed.

(** The disconnect listener calls the registered disconnect handler once
    with the client that left, whether or not the deny-list was cleared,
    and sends nothing on the channel; with no function registered it
    calls nothing. *)
Theorem disconnect_callback_is_called
  (cb : jsval) (c : client) (s : state) (ch : channelT) :
  channel s = Some ch ->
  let s1 := final (setCallback "disconnect" cb s) in
  let o := onClientDisconnect c s1 in
  result o = Normal tt
  /\ trace o = match cb with
               | Func f => [CallWithClient f c]
               | _ => []
               end
  /\ videoId (final o) = videoId s
  /\ maxClients (final o) = maxClients s.
Proof.
  intros Hch s1 o.
  assert (channel s1 = Some ch) as Hch1 by exact Hch.
  assert (clientCallback s1 "disconnect" = cb) as Cd
      by apply clientCallback_set_same.
  subst o. unfold onClientDisconnect.
  rewrite (bind_Normal _ _ _ _ _ _ (theChannel_connected s1 ch Hch1)).
  rewrite (bind_Normal _ _ _ _ _ _ (get_run s1)). rewrite Cd.
  destruct (num_le (Num (Z.of_nat (List.length (clients ch)))) (maxClients s1));
    destruct cb as [d|f|el]; repeat split; reflexivity.
Qed.

End Callbacks.

(** *** Occurrences on the deny-list *)

Section Occurrences.

Variable rt : Runtime.

Lemma count_occ_splice1 (l : list string) (x y : string) :
  In y l ->
  count_occ string_dec (splice1 l (Z.to_nat (indexOf l y))) x =
    if string_dec y x then pred (count_occ string_dec l x)
    else count_occ string_dec l x.
Proof.
  induction l as [|z r IH]; intros Hy; [contradiction|].
  cbn [indexOf]. destruct (String.eqb_spec z y) as [E|E].
  - subst z. cbn [Z.to_nat splice1 count_occ].
    destruct (string_dec y x); reflexivity.
  - assert (In y r) as Hy' by (destruct Hy; [contradiction | assumption]).
    pose proof (indexOf_range r y) as R.
    destruct (Z.ltb_spec (indexOf r y) 0) as [L|L].
    + exfalso. assert (indexOf r y = -1) as A by lia.
      apply indexOf_absent in A. contradiction.
    + replace (Z.to_nat (indexOf r y + 1)) with (S (Z.to_nat (indexOf r y))) by lia.
      cbn [splice1 count_occ]. rewrite (IH Hy').
      destruct (string_dec y x) as [Eyx|Nyx]; destruct (string_dec z x) as [Ezx|Nzx];
        try reflexivity.
      exfalso. congruence.
Qed.

Lemma isClientAllowed_count (s : state) (c : client) :
  isClientAllowed s c = true <->
  count_occ string_dec (forbiddenClients s) (id c) = 0%nat.
Proof.
  rewrite isClientAllowed_spec. apply count_occ_not_In.
Qed.

(** The deny-list is a list with repetitions.  Each connect event over
    the limit adds one occurrence of the client's id, each connect event
    within the limit takes one occurrence out, and other ids are not
    affected.  So a client denied twice is still rejected by the
    dispatcher after it has been admitted once: it passes the allow check
    after an admission exactly when its id was listed at most once. *)
Theorem admission_removes_one_occurrence
  (c : client) (s : state) (ch : channelT) :
  channel s = Some ch ->
  let after := forbiddenClients (final (onClientConnect rt c s)) in
  let before := forbiddenClients s in
  (forall x, x <> id c ->
             count_occ string_dec after x = count_occ string_dec before x)
  /\ (if num_lt (maxClients s) (Num (Z.of_nat (List.length (clients ch))))
      then count_occ string_dec after (id c)
           = S (count_occ string_dec before (id c))
      else count_occ string_dec after (id c)
           = pred (count_occ string_dec before (id c))
           /\ (isClientAllowed (final (onClientConnect rt c s)) c = true
               <-> (count_occ string_dec before (id c) <= 1)%nat)).
Proof.
  intros Hch after before. subst after before.
  destruct (num_lt (maxClients s) (Num (Z.of_nat (List.length (clients ch)))))
    eqn:Hlt.
  - rewrite (onClientConnect_denies rt c s ch Hch Hlt). cbn [denial final forbiddenClients set_forbiddenClients].
    split.
    + intros x N. rewrite count_occ_app. cbn.
      destruct (string_dec (id c) x); [congruence | lia].
    + rewrite count_occ_app. cbn.
      destruct (string_dec (id c) (id c)); [lia | congruence].
  - rewrite isClientAllowed_count.
    rewrite (onClientConnect_admits rt c s ch Hch Hlt).
    rewrite admission_forbiddenClients.
    destruct (Z.ltb_spec (-1) (indexOf (forbiddenClients s) (id c))) as [L|L].
    + assert (In (id c) (forbiddenClients s)) as I.
      { destruct (in_dec string_dec (id c) (forbiddenClients s)) as [I|I];
          [exact I|]. apply indexOf_absent in I. lia. }
      split; [|split].
      * intros x N. rewrite (count_occ_splice1 _ x _ I).
        destruct (string_dec (id c) x); congruence.
      * rewrite (count_occ_splice1 _ (id c) _ I).
        destruct (string_dec (id c) (id c)); congruence.
      * rewrite (count_occ_splice1 _ (id c) _ I).
        destruct (string_dec (id c) (id c)); [lia | congruence].
    + assert (~ In (id c) (forbiddenClients s)) as I.
      { apply indexOf_absent. pose proof (indexOf_range (forbiddenClients s) (id c)). lia. }
      apply (count_occ_not_In string_dec) in I.
      split; [reflexivity|]. rewrite I. split; [reflexivity|]. split; lia.
Qed.

End Occurrences.

(** *** The channel comes up *)

Section ChannelUp.

Variable rt : Runtime.

Lemma emitClientConnect_run (c : client) (s : state) :
  emitClientConnect rt c s =
    {| result := result (onClientConnect rt c s);
       final := final (onClientConnect rt c s);
       trace := ChannelEmit "clientConnect" c :: trace (onClientConnect rt c s) |}.
Proof.
  unfold emitClientConnect.
  now rewrite (bind_Normal (emit (ChannelEmit "clientConnect" c)) _ s s tt
                 [ChannelEmit "clientConnect" c] eq_refl).
Qed.

(** Over the limit every client of the loop is denied in turn. *)
Lemma forEach_all_denied (l : list client) (s : state) (ch : channelT) :
  channel s = Some ch ->
  num_lt (maxClients s) (Num (Z.of_nat (List.length (clients ch)))) = true ->
  forEach l (fun c => if isHost c then ret tt else emitClientConnect rt c) s =
    {| result := Normal tt;
       final := set_forbiddenClients
                  (forbiddenClients s
                     ++ map id (filter (fun c => negb (isHost c)) l))%list s;
       trace := flat_map
                  (fun c => [ChannelEmit "clientConnect" c; readyBroadcast;
                             accessDenied (id c)])
                  (filter (fun c => negb (isHost c)) l) |}.
Proof.
  revert s. induction l as [|c r IH]; intros s Hch Hlt.
  - cbn. rewrite app_nil_r. now destruct s.
  - cbn [forEach filter]. destruct (isHost c) eqn:Hc; cbn [negb].
    + rewrite (bind_Normal (ret tt) _ s s tt [] eq_refl). cbv beta.
      rewrite (IH s Hch Hlt). reflexivity.
    + assert (emitClientConnect rt c s =
                {| result := Normal tt;
                   final := set_forbiddenClients (forbiddenClients s ++ [id c])%list s;
                   trace := [ChannelEmit "clientConnect" c; readyBroadcast;
                             accessDenied (id c)] |}) as E.
      { rewrite emitClientConnect_run, (onClientConnect_denies rt c s ch Hch Hlt).
        reflexivity. }
      rewrite (bind_Normal _ _ _ _ _ _ E). cbv beta.
      rewrite (IH (set_forbiddenClients (forbiddenClients s ++ [id c])%list s) Hch Hlt).
      cbn [map flat_map app result final trace forbiddenClients
                                     set_forbiddenClients].
      rewrite <- app_assoc. reflexivity.
Qed.

(** Within the limit every client of the loop is admitted in turn. *)
Lemma forEach_all_admitted (l : list client) (s : state) (ch : channelT) :
  channel s = Some ch ->
  num_lt (maxClients s) (Num (Z.of_nat (List.length (clients ch)))) = false ->
  let o := forEach l (fun c => if isHost c then ret tt else emitClientConnect rt c) s in
  result o = Normal tt
  /\ trace o = flat_map (announced (clientCallback s "connect"))
                        (filter (fun c => negb (isHost c)) l)
  /\ (forall x,
        count_occ string_dec (forbiddenClients (final o)) x =
          (count_occ string_dec (forbiddenClients s) x
           - count_occ string_dec
               (map id (filter (fun c => negb (isHost c)) l)) x)%nat)
  /\ channel (final o) = channel s
  /\ maxClients (final o) = maxClients s
  /\ clientCallbacks (final o) = clientCallbacks s.
Proof.
  revert s. induction l as [|c r IH]; intros s Hch Hlt o; subst o.
  - cbn. repeat split. intros x. lia.
  - cbn [forEach filter]. destruct (isHost c) eqn:Hc; cbn [negb].
    + rewrite (bind_Normal (ret tt) _ s s tt [] eq_refl). cbv beta.
      cbn [result final trace app]. exact (IH s Hch Hlt).
    + pose proof (emitClientConnect_run c s) as E.
      rewrite (onClientConnect_admits rt c s ch Hch Hlt) in E.
      set (s1 := final (admission rt c s)) in *.
      assert (result (admission rt c s) = Normal tt
              /\ trace (admission rt c s)
                 = readyBroadcast :: match clientCallback s "connect" with
                                     | Func f => [CallWithClient f c]
                                     | _ => []
                                     end
              /\ clientCallbacks s1 = clientCallbacks s) as [R [T K]].
      { subst s1. unfold admission.
        destruct (clientCallback s "connect") as [d|f|el]; cbn [result trace final];
          try destruct (truthy (callback_result rt f c));
          destruct (-1 <? indexOf (forbiddenClients s) (id c)); repeat split. }
      rewrite R, T in E.
      rewrite (bind_Normal _ _ _ _ _ _ E). cbv beta. cbn [result final trace].
      destruct (admission_frame rt c s) as [F1 [F2 _]]. fold s1 in F1, F2.
      assert (channel s1 = Some ch) as Hch1 by congruence.
      assert (num_lt (maxClients s1) (Num (Z.of_nat (List.length (clients ch)))) = false)
        as Hlt1 by (rewrite F2; exact Hlt).
      destruct (IH s1 Hch1 Hlt1) as [R1 [T1 [C1 [G1 [G2 G3]]]]].
      split; [exact R1|]. split; [|split; [|split; [|split]]].
      * rewrite T1. cbn [flat_map map]. unfold clientCallback. rewrite K. reflexivity.
      * intros x. rewrite C1. cbn [map count_occ].
        assert (count_occ string_dec (forbiddenClients s1) x =
                  if string_dec (id c) x
                  then pred (count_occ string_dec (forbiddenClients s) x)
                  else count_occ string_dec (forbiddenClients s) x) as Q.
        { subst s1. rewrite admission_forbiddenClients.
          destruct (Z.ltb_spec (-1) (indexOf (forbiddenClients s) (id c))) as [L|L].
          - apply count_occ_splice1.
            destruct (in_dec string_dec (id c) (forbiddenClients s)) as [I|I];
              [exact I|]. apply indexOf_absent in I. lia.
          - assert (~ In (id c) (forbiddenClients s)) as I.
            { apply indexOf_absent.
              pose proof (indexOf_range (forbiddenClients s) (id c)). lia. }
            apply (count_occ_not_In string_dec) in I.
            destruct (string_dec (id c) x) as [<-|]; [now rewrite I | reflexivity]. }
        rewrite Q. destruct (string_dec (id c) x); lia.
      * congruence.
      * congruence.
      * congruence.
Qed.

(** When the channel has connected (after one call of [connect]), the
    clients that were already there are announced to the listeners of
    "clientConnect", the host left out,
    in the order of [channel.clients]; the module's own listener runs
    inside each emit, and "ready" is broadcast at the end.  The list does
    not change during the loop, so the listener's count is the same for
    every client: over the limit every client present is denied (a 403
    each, each id added to the deny-list), the first ones included;
    within the limit every one is admitted (no 403, the connect handler
    called for each, one occurrence of each id taken off the deny-list).
    "ready" is broadcast once per client and once more at the end.  With
    an error nothing is announced or broadcast. *)
Theorem onChannelConnect_announces_clients
  (err : value) (s : state) (ch : channelT) :
  channel s = Some ch ->
  let o := onChannelConnect_listening rt err s in
  let present := filter (fun c => negb (isHost c)) (clients ch) in
  if truthy err then
    o = {| result := Normal tt; final := s;
           trace := [Console "error" "Error initializing FastCast!"] |}
  else if num_lt (maxClients s) (Num (Z.of_nat (List.length (clients ch)))) then
    o = {| result := Normal tt;
           final := set_forbiddenClients
                      (forbiddenClients s ++ map id present)%list s;
           trace := (flat_map
                       (fun c => [ChannelEmit "clientConnect" c; readyBroadcast;
                                  accessDenied (id c)]) present
                     ++ [readyBroadcast])%list |}
  else
    result o = Normal tt
    /\ trace o = (flat_map (announced (clientCallback s "connect")) present
                  ++ [readyBroadcast])%list
    /\ (forall x,
          count_occ string_dec (forbiddenClients (final o)) x =
            (count_occ string_dec (forbiddenClients s) x
             - count_occ string_dec (map id present) x)%nat)
    /\ channel (final o) = channel s
    /\ maxClients (final o) = maxClients s
    /\ clientCallbacks (final o) = clientCallbacks s.
Proof.
  intros Hch o present. subst o present. unfold onChannelConnect_listening.
  destruct (truthy err); [reflexivity|].
  rewrite (bind_Normal _ _ _ _ _ _ (theChannel_connected s ch Hch)). cbn [app].
  destruct (num_lt (maxClients s) (Num (Z.of_nat (List.length (clients ch))))) eqn:Hlt.
  - rewrite (bind_Normal _ _ _ _ _ _ (forEach_all_denied (clients ch) s ch Hch Hlt)).
    cbv beta.
    rewrite (send_connected _ (set_forbiddenClients _ s) ch Hch). reflexivity.
  - pose proof (forEach_all_admitted (clients ch) s ch Hch Hlt) as P. cbv zeta in P.
    unfold bind.
    destruct (forEach (clients ch) _ s) as [r1 s1 t1]. cbn [result final trace] in P.
    destruct P as [R [T [C [G1 [G2 G3]]]]]. subst r1.
    rewrite (send_connected _ s1 ch (eq_trans G1 Hch)). cbn [result final trace].
    rewrite T. repeat split; assumption.
Qed.

End ChannelUp.

(** *** The key table *)

Lemma assoc_app {A} (k : string) (l1 l2 : list (string * A)) :
  assoc k (l1 ++ l2) = match assoc k l1 with
                       | Some a => Some a
                       | None => assoc k l2
                       end.
Proof.
  induction l1 as [|[k' a'] r IH]; cbn; [reflexivity|].
  destruct (String.eqb k k'); [reflexivity | exact IH].
Qed.

Lemma assoc_fold_assoc_set {A} (k : string) (l init : list (string * A)) :
  assoc k (fold_left (fun keys el => assoc_set (fst el) (snd el) keys) l init) =
    match assoc k (rev l) with
    | Some a => Some a
    | None => assoc k init
    end.
Proof.
  revert init. induction l as [|[k' a'] r IH]; intros init; cbn [fold_left rev].
  - reflexivity.
  - rewrite IH, assoc_app. cbn [fst snd assoc].
    destruct (assoc k (rev r)); [reflexivity|].
    destruct (String.eqb_spec k k') as [E|E].
    + subst k'. apply assoc_set_same.
    + now apply assoc_set_other.
Qed.

(** The key table once the module is loaded: a name the platform reports
    resolves to the code the platform reported last for it, also when the
    name is one of the five seeded ones; any other name resolves as in the
    seed, so Enter is 13 on a platform that does not report an Enter
    key. *)
Theorem tvKeys_platform_overrides_seed (rt : Runtime) (name : string) :
  assoc name (tvKeys (initial rt)) =
    match assoc name (rev (getSupportedKeys rt)) with
    | Some code => Some code
    | None => assoc name tvKeys_seed
    end.
Proof.
  cbn [tvKeys initial]. unfold tvKeys_loaded. apply assoc_fold_assoc_set.
Qed.

(** *** What the dispatcher may send *)

Lemma emits_only_ret {A} (P : effect -> Prop) (a : A) : emits_only P (ret a).
Proof. intros s. constructor. Qed.

Lemma emits_only_throw {A} (P : effect -> Prop) (e : exn) :
  emits_only P (@throw A e).
Proof. intros s. constructor. Qed.

Lemma emits_only_get (P : effect -> Prop) : emits_only P get.
Proof. intros s. constructor. Qed.

Lemma emits_only_modify (P : effect -> Prop) (g : state -> state) :
  emits_only P (modify g).
Proof. intros s. constructor. Qed.

Lemma emits_only_emit (P : effect -> Prop) (e : effect) :
  P e -> emits_only P (emit e).
Proof. intros H s. cbn. now constructor. Qed.

Lemma emits_only_orTypeError {A} (P : effect -> Prop) (o : option A) :
  emits_only P (orTypeError o).
Proof. destruct o; [apply emits_only_ret | apply emits_only_throw]. Qed.

Lemma emits_only_bind {A B} (P : effect -> Prop) (m : M A) (k : A -> M B) :
  emits_only P m -> (forall a, emits_only P (k a)) -> emits_only P (bind m k).
Proof.
  intros Hm Hk s. unfold bind. specialize (Hm s).
  destruct (m s) as [[a|e] s1 t1]; cbn [trace] in *; [|exact Hm].
  specialize (Hk a s1). destruct (k a s1) as [r s2 t2]. cbn [trace] in *.
  apply Forall_app. now split.
Qed.

Ltac effects :=
  repeat first
    [ apply emits_only_ret | apply emits_only_throw | apply emits_only_get
    | apply emits_only_modify | apply emits_only_orTypeError
    | apply emits_only_emit; cbn; tauto
    | apply emits_only_bind; [| intros]
    | match goal with
      | |- emits_only _ (match ?x with _ => _ end) => destruct x
      end ].

Section DispatchEffects.

Variable rt : Runtime.

Lemma emits_only_handlers (P : effect -> Prop) (e : protocolEvent) (parsed : value)
  (handler : value -> M unit) :
  (forall eff, localEffect eff -> P eff) ->
  assoc (eventName e) eventCallbacks = Some handler ->
  emits_only P (handler parsed).
Proof.
  intros HP Hh.
  assert (forall eff, localEffect eff -> emits_only P (emit eff)) as E.
  { intros eff L. apply emits_only_emit. now apply HP. }
  destruct e; cbn in Hh; injection Hh as <-;
    unfold onKeydown, onSeek, onVolume, onPlay, onReclaim, sendKeydownEvent;
    repeat first [ apply E; exact I | progress effects ].
Qed.

Lemma not_admitted (s : state) (c : client) :
  ~ admitted s c <-> isClientAllowed s c = false /\ allowingAllClients s = false.
Proof.
  unfold admitted. split.
  - intros H.
    split; [destruct (isClientAllowed s c) | destruct (allowingAllClients s)];
      try reflexivity; exfalso; apply H; auto.
  - intros [H1 H2] [A|A]; congruence.
Qed.

(** The only thing the dispatcher of a protocol event ever sends on the
    channel is the 403 error to the client the message came from: it
    never broadcasts, never answers another client and, the five events
    being bound, never sends the 500 error.  Everything else it does
    stays on the TV.  With a channel handle it returns [false] exactly to
    the senders that do not pass the allow check.  An event name with no
    handler bound would be answered with the 500 error, before the
    deny-list is consulted. *)
Theorem dispatch_sends_only_403_to_sender
  (e : protocolEvent) (obj : value) (c : client) (s : state) :
  let o := dispatch rt (eventName e) obj c s in
  Forall (fun eff => eff = accessDenied (id c) \/ localEffect eff) (trace o)
  /\ ~ In (internalError (id c)) (trace o)
  /\ (forall ch, channel s = Some ch ->
        (result o = Normal (VBool false) <-> ~ admitted s c))
  /\ (forall callbacks event ch,
        channel s = Some ch ->
        assoc event callbacks = None ->
        dispatchWith rt callbacks event obj c s =
          {| result := Normal (VBool false); final := s;
             trace := [internalError (id c)] |}).
Proof.
  intros o. subst o.
  assert (exists h, assoc (eventName e) eventCallbacks = Some h) as [h Hh]
      by (destruct e; eexists; reflexivity).
  assert (Forall (fun eff => eff = accessDenied (id c) \/ localEffect eff)
            (trace (dispatch rt (eventName e) obj c s))) as F.
  { unfold dispatch, dispatchWith. rewrite Hh.
    rewrite (bind_Normal _ _ _ _ _ _ (get_run s)). cbn [trace app].
    destruct (negb (isClientAllowed s c) && negb (allowingAllClients s)).
    - unfold raiseError, send, theChannel. unfold_monad.
      destruct (channel s); cbn; repeat constructor.
    - apply emits_only_bind; [|intros; apply emits_only_ret].
      apply (emits_only_handlers _ e _ h); [tauto | exact Hh]. }
  split; [exact F|]. split; [|split].
  - intros I. rewrite Forall_forall in F. destruct (F _ I) as [D|L].
    + discriminate.
    + exact L.
  - intros ch Hch. split.
    + intros R A. unfold dispatch in R.
      rewrite (dispatchWith_admitted rt eventCallbacks h (eventName e) obj c s A Hh) in R.
      unfold returning, bind, ret in R.
      destruct (h (parsePayload rt obj) s) as [[a|x] s1 t1]; discriminate.
    + intros N. apply not_admitted in N. destruct N as [N1 N2].
      unfold dispatch, dispatchWith. rewrite Hh.
      rewrite (bind_Normal _ _ _ _ _ _ (get_run s)). rewrite N1, N2. cbn [negb andb].
      now rewrite (bind_Normal _ _ _ _ _ _ (raiseError_403 (id c) s ch Hch)).
  - intros callbacks event ch Hch Hn. unfold dispatchWith. rewrite Hn.
    unfold raiseError, bind. now rewrite (send_connected _ s ch Hch).
Qed.

End DispatchEffects.

(** *** What the operations leave alone *)

Ltac unfold_module :=
  unfold init, init_resolved, deinit, connect, channel_on,
    onVisibilityChangeHandle, play, sendStatus, error, on, setCallback,
    onChannelConnect, onClientConnect, onClientDisconnect, onConnect,
    onDisconnect, onVisibilityChange, theChannel.

Ltac frame_module :=
  unfold_module;
  repeat first
    [ apply preserves_send | apply preserves_raiseError | progress frame ].

Section Frames.

Variable rt : Runtime.

Lemma preserves_handlers_but_play {X} (f : state -> X) (e : protocolEvent)
  (obj : value) (c : client) :
  (forall k s, f (set_global_keycode k s) = f s) ->
  (forall k s, f (set_global_event k s) = f s) ->
  e <> EvPlay ->
  preserves f (dispatch rt (eventName e) obj c).
Proof.
  intros Hk He Ne. unfold dispatch, dispatchWith.
  destruct e; try contradiction;
    cbn [eventName assoc eventCallbacks String.eqb Ascii.eqb Bool.eqb];
    unfold onKeydown, onSeek, onVolume, onReclaim, sendKeydownEvent;
    repeat first
      [ apply preserves_raiseError
      | apply preserves_modify; intros; first [apply Hk | apply He]
      | progress frame ].
Qed.

(** Who writes what.  The key table is never written after the module
    is loaded.  The client limit is written by [connect] only; the
    channel handle by the resolution of [init] and by [deinit] only; the
    event bus by [init] only; the application's callbacks by their two
    setters only; the current video by a play message and by the connect
    listener only.  This holds whether the operation returns or throws. *)
Theorem step_writes_only_its_own_variables (o : op) (s : state) :
  let s' := final (step rt o s) in
  tvKeys s' = tvKeys s
  /\ ((forall prop m, o <> Connect prop m) -> maxClients s' = maxClients s)
  /\ ((forall cb err ch, o <> InitResolved cb err ch) -> o <> Deinit ->
      channel s' = channel s)
  /\ ((forall name eb cb, o <> Init name eb cb) -> eventBus s' = eventBus s)
  /\ ((forall cb, o <> SetOnClientConnect cb) ->
      (forall cb, o <> SetOnClientDisconnect cb) ->
      clientCallbacks s' = clientCallbacks s)
  /\ ((forall obj c, o <> Message EvPlay obj c) ->
      (forall c, o <> ClientConnect c) ->
      videoId s' = videoId s).
Proof.
  intros s'. subst s'. repeat split.
  - revert s. change (preserves tvKeys (step rt o)).
    destruct o; cbn [step]; unfold returning;
      try (apply preserves_dispatch; reflexivity); frame_module.
  - intros H. revert s. change (preserves maxClients (step rt o)).
    destruct o; cbn [step]; unfold returning;
      try (exfalso; eapply H; reflexivity);
      try (apply preserves_dispatch; reflexivity); frame_module.
  - intros H1 H2. revert s. change (preserves channel (step rt o)).
    destruct o; cbn [step]; unfold returning;
      try (exfalso; eapply H1; reflexivity);
      try (exfalso; apply H2; reflexivity);
      try (apply preserves_dispatch; reflexivity); frame_module.
  - intros H. revert s. change (preserves eventBus (step rt o)).
    destruct o; cbn [step]; unfold returning;
      try (exfalso; eapply H; reflexivity);
      try (apply preserves_dispatch; reflexivity); frame_module.
  - intros H1 H2. revert s. change (preserves clientCallbacks (step rt o)).
    destruct o; cbn [step]; unfold returning;
      try (exfalso; eapply H1; reflexivity);
      try (exfalso; eapply H2; reflexivity);
      try (apply preserves_dispatch; reflexivity); frame_module.
  - intros H1 H2. revert s. change (preserves videoId (step rt o)).
    destruct o; cbn [step]; unfold returning;
      try (exfalso; eapply H2; reflexivity);
      try (apply preserves_handlers_but_play;
           [reflexivity | reflexivity | intros ->; eapply H1; reflexivity]);
      frame_module.
Qed.

End Frames.

(** *** The allow-all flag *)

Lemma maintains_ret {A} (P : state -> Prop) (a : A) : maintains P (ret a).
Proof. intros s H. exact H. Qed.

Lemma maintains_throw {A} (P : state -> Prop) (e : exn) :
  maintains P (@throw A e).
Proof. intros s H. exact H. Qed.

Lemma maintains_get (P : state -> Prop) : maintains P get.
Proof. intros s H. exact H. Qed.

Lemma maintains_emit (P : state -> Prop) (e : effect) : maintains P (emit e).
Proof. intros s H. exact H. Qed.

Lemma maintains_orTypeError {A} (P : state -> Prop) (o : option A) :
  maintains P (orTypeError o).
Proof. destruct o; [apply maintains_ret | apply maintains_throw]. Qed.

Lemma maintains_modify (P : state -> Prop) (g : state -> state) :
  (forall s, P s -> P (g s)) -> maintains P (modify g).
Proof. intros H s Hs. now apply H. Qed.

Lemma maintains_bind {A B} (P : state -> Prop) (m : M A) (k : A -> M B) :
  maintains P m -> (forall a, maintains P (k a)) -> maintains P (bind m k).
Proof.
  intros Hm Hk s Hs. unfold bind. specialize (Hm s Hs).
  destruct (m s) as [[a|e] s1 t1]; cbn [final] in *; [|exact Hm].
  specialize (Hk a s1 Hm). now destruct (k a s1).
Qed.

Lemma maintains_of_preserves {X A} (f : state -> X) (x : X) (m : M A) :
  preserves f m -> maintains (fun s => f s = x) m.
Proof. intros H s Hs. cbv beta. now rewrite H. Qed.

Section AllowAll.

Variable rt : Runtime.

Lemma connect_keeps_allowingAllClients (prop maximumClients : jsval) :
  maintains (fun s => allowingAllClients s = true) (connect prop maximumClients).
Proof.
  unfold connect, channel_on, onVisibilityChangeHandle, theChannel. cbv zeta.
  repeat first
    [ apply maintains_ret | apply maintains_throw | apply maintains_get
    | apply maintains_emit | apply maintains_orTypeError
    | apply maintains_modify; intros s0 H0; cbn; first [reflexivity | exact H0]
    | apply maintains_bind; [| intros]
    | match goal with
      | |- maintains _ (match ?x with _ => _ end) => destruct x
      end ].
Qed.

Lemma step_keeps_allowingAllClients (o : op) :
  maintains (fun s => allowingAllClients s = true) (step rt o).
Proof.
  destruct o;
    try (apply maintains_of_preserves, step_preserves_allowingAllClients;
         discriminate).
  cbn [step]. unfold returning.
  apply maintains_bind; [apply connect_keeps_allowingAllClients|].
  intros _. apply maintains_ret.
Qed.

(** Once [connect] has been given a negative limit the allow-all flag
    stays set for good: no operation, listener or later [connect] (with
    whatever limit) clears it, and from then on every client passes the
    dispatcher's allow check, deny-listed or not.  Conversely, without a
    call of [connect] the flag keeps the value it had. *)
Theorem allowingAllClients_is_never_reset (ops : list op) (s : state) :
  (allowingAllClients s = true ->
   allowingAllClients (run rt ops s) = true
   /\ forall c, admitted (run rt ops s) c)
  /\ (Forall (fun o => forall prop m, o <> Connect prop m) ops ->
      allowingAllClients (run rt ops s) = allowingAllClients s).
Proof.
  split.
  - intros H.
    assert (allowingAllClients (run rt ops s) = true) as G.
    { revert s H. induction ops as [|o r IH]; intros s H; [exact H|].
      cbn [run]. apply IH. now apply step_keeps_allowingAllClients. }
    split; [exact G|]. intros c. now right.
  - revert s. induction ops as [|o r IH]; intros s F; [reflexivity|].
    inversion F as [|o' r' Ho Hr]; subst. cbn [run].
    rewrite (IH _ Hr). now apply step_preserves_allowingAllClients.
Qed.

End AllowAll.

(** *** Concrete runs of the further properties *)

(** [{"keycode":"MediaPlay"}] on the TV whose platform reports that key. *)
Lemma keydown_table_key_witness :
  dispatch tizen_tv "keydown" (VObj [("keycode", VStr "MediaPlay")]) (mobile "a") ready =
    {| result := Normal VUndefined;
       final := set_global_keycode (Some (KeyValue (VNum (Num 415)))) ready;
       trace := [KeydownEvent None (KeyValue (VNum (Num 415)))] |}.
Proof.
  apply (keydown_table_key tizen_tv (VObj [("keycode", VStr "MediaPlay")])
           (VStr "MediaPlay") "MediaPlay" (Num 415) (mobile "a") ready
           (or_introl eq_refl) eq_refl eq_refl eq_refl eq_refl eq_refl).
Defined.

(** [{"keycode":10182}]: a code the table has no name for. *)
Lemma keydown_numeric_code_witness :
  dispatch tizen_tv "keydown" (VObj [("keycode", VNum (Num 10182))]) (mobile "a") ready =
    {| result := Normal VUndefined;
       final := set_global_keycode (Some (KeyValue (VNum (Num 10182)))) ready;
       trace := [KeydownEvent None (KeyValue (VNum (Num 10182)))] |}.
Proof.
  apply (keydown_numeric_code tizen_tv (VObj [("keycode", VNum (Num 10182))])
           10182 (mobile "a") ready (or_introl eq_refl) eq_refl).
  - discriminate.
  - reflexivity.
Defined.

(** After Enter has been pressed, an unknown key name presses Enter
    again. *)
Lemma keydown_unresolved_name_repeats_last_key_witness :
  dispatch tizen_tv "keydown" (VObj [("keycode", VStr "Foo")]) (mobile "a")
      (set_global_keycode (Some (KeyValue (VNum (Num 13)))) ready) =
    {| result := Normal VUndefined;
       final := set_global_keycode (Some (KeyValue (VNum (Num 13)))) ready;
       trace := [KeydownEvent None (KeyValue (VNum (Num 13)))] |}.
Proof.
  apply (keydown_unresolved_name_repeats_last_key tizen_tv
           (VObj [("keycode", VStr "Foo")]) (VStr "Foo") "Foo" (mobile "a")
           (set_global_keycode (Some (KeyValue (VNum (Num 13)))) ready)
           (or_introl eq_refl) eq_refl eq_refl eq_refl eq_refl).
  discriminate.
Defined.

(** A play message with data. *)
Lemma play_message_updates_video_witness :
  dispatch tizen_tv "play"
      (VObj [("videoId", VNum (Num 7)); ("data", VStr "s01e02")]) (mobile "a") ready =
    {| result := Normal VUndefined;
       final := set_videoId (VNum (Num 7)) ready;
       trace := [DocumentDispatch "ms2:play"
                   (Some (VObj [("videoId", VNum (Num 7)); ("position", VUndefined);
                                ("data", VStr "s01e02")]))] |}.
Proof.
  apply (play_message_updates_video tizen_tv
           (VObj [("videoId", VNum (Num 7)); ("data", VStr "s01e02")])
           (mobile "a") ready (or_introl eq_refl)).
Defined.

(** [FastCast.play(7, 1500)] on one TV, received by another. *)
Lemma play_broadcast_is_received_witness :
  play (VNum (Num 7)) (VNum (Num 1500)) VUndefined ready =
    {| result := Normal tt; final := ready;
       trace := [Publish [Data (VStr "play");
                          Data (VObj [("videoId", VNum (Num 7));
                                      ("position", VNum (Num 1500))])]] |}
  /\ dispatch tizen_tv "play"
       (VObj [("videoId", VNum (Num 7)); ("position", VNum (Num 1500))])
       (mobile "a") crowded =
     {| result := Normal VUndefined; final := set_videoId (VNum (Num 7)) crowded;
        trace := [DocumentDispatch "ms2:play"
                    (Some (VObj [("videoId", VNum (Num 7));
                                 ("position", VNum (Num 1500))]))] |}.
Proof.
  apply (play_broadcast_is_received tizen_tv (VNum (Num 7)) (VNum (Num 1500))
           VUndefined ready crowded {| clients := [host]; isConnected := false |}
           (mobile "a") eq_refl (or_introl eq_refl)).
Defined.

(** The status of the TV muted at level 12, and its volume fed back. *)
Lemma status_volume_round_trip_witness :
  trace (sendStatus tizen_tv_muted VUndefined ready) =
    [Publish [Data (VStr "status");
              Data (VStr (json_stringify
                            (VObj [("state", VStr "PAUSED");
                                   ("position", VNum (Num 1500));
                                   ("totalTime", VNum (Num 90000));
                                   ("volume", VNum (Num (-12)));
                                   ("videoId", VNum (Num (-1)))])))]]
  /\ trace (dispatch tizen_tv_muted "volume" (VObj [("value", VNum (Num (-12)))])
              (mobile "a") ready) =
       [ SetVolume (Num 12); SetMute true;
         DocumentDispatch "ms2:volume"
           (Some (VObj [("volume", VNum (Num 12)); ("isMute", VBool true)])) ].
Proof.
  destruct (status_volume_round_trip tizen_tv_muted VUndefined ready ready
              {| clients := [host]; isConnected := false |} 12 (mobile "a")
              eq_refl eq_refl ltac:(lia) (conj eq_refl eq_refl) (or_introl eq_refl))
    as [S [level [L T]]].
  split.
  - rewrite S. reflexivity.
  - injection L as <-. exact T.
Defined.

(** [init("fastcast")] with the name alone, then Enter. *)
Lemma keydown_target_after_init_witness :
  dispatch tizen_tv "keydown" (VObj [("keycode", VStr "Enter")]) (mobile "a")
      (final (init tizen_tv (Data (VStr "fastcast")) (Data VUndefined)
                (Data VUndefined) (initial tizen_tv))) =
    {| result := Throw TypeError;
       final := set_global_keycode (Some (KeyValue (VNum (Num 13))))
                  (final (init tizen_tv (Data (VStr "fastcast")) (Data VUndefined)
                            (Data VUndefined) (initial tizen_tv)));
       trace := [] |}.
Proof.
  apply (keydown_target_after_init tizen_tv "fastcast" (Data VUndefined)
           (Data VUndefined) (VObj [("keycode", VStr "Enter")]) (VStr "Enter")
           "Enter" (Num 13) (mobile "a") (initial tizen_tv)
           eq_refl eq_refl ltac:(discriminate) (or_introl eq_refl)
           eq_refl eq_refl eq_refl eq_refl eq_refl).
Defined.

(** [deinit] on the crowded channel: the deny-list is still there when a
    new channel has been resolved. *)
Lemma deinit_keeps_admission_state_witness :
  forbiddenClients
    (final (init_resolved (Data VUndefined) VNull
              {| clients := [host]; isConnected := false |}
              (final (deinit crowded)))) = ["b"]
  /\ result (deinit (final (deinit crowded))) = Throw TypeError.
Proof.
  destruct (deinit_keeps_admission_state crowded
              {| clients := [host; mobile "a"; mobile "b"]; isConnected := true |}
              {| clients := [host]; isConnected := false |} (Data VUndefined) eq_refl)
    as [_ [D R]].
  split.
  - rewrite R. reflexivity.
  - rewrite D. reflexivity.
Defined.

(** [FastCast.status()] before [init]. *)
Lemma operations_need_the_channel_witness :
  step tizen_tv (Status VUndefined) (initial tizen_tv) =
    {| result := Throw TypeError; final := initial tizen_tv; trace := [] |}.
Proof.
  apply (operations_need_the_channel tizen_tv (Status VUndefined) (initial tizen_tv)
           eq_refl eq_refl).
Defined.

(** [FastCast.connect({}, 4)] before [init]. *)
Lemma connect_without_channel_still_sets_limit_witness :
  result (connect (Data (VObj [])) (Data (VNum (Num 4))) (initial tizen_tv))
    = Throw TypeError
  /\ maxClients (final (connect (Data (VObj [])) (Data (VNum (Num 4)))
                          (initial tizen_tv))) = Num 5.
Proof.
  destruct (connect_without_channel_still_sets_limit [] 4 (initial tizen_tv) eq_refl
              (conj eq_refl eq_refl))
    as [R [_ F]].
  split; [exact R|]. rewrite F. reflexivity.
Defined.

(** [FastCast.connect({name: "", room: "den"})]. *)
Lemma connect_registers_and_names_witness :
  trace (connect (Data (VObj [("name", VStr ""); ("room", VStr "den")]))
           (Data VUndefined) ready) =
    (registrations
       ++ [ChannelConnect (Data (VObj [("name", VStr "TV"); ("room", VStr "den")]));
           AddVisibilityListener])%list
  /\ result (connect (Data (VObj [("name", VStr ""); ("room", VStr "den")]))
               (Data VUndefined) ready) = Normal tt.
Proof.
  pose proof (connect_registers_and_names [("name", VStr ""); ("room", VStr "den")]
                (Data VUndefined) ready {| clients := [host]; isConnected := false |}
                eq_refl) as [R _].
  split; [reflexivity | exact R].
Defined.

(** [FastCast.connect(-1, 5)] and [FastCast.connect(3, 5)]: the first
    argument is the limit. *)
Lemma connect_number_in_first_place_witness :
  allowingAllClients (final (connect (Data (VNum (Num (-1)))) (Data (VNum (Num 5))) ready))
    = true
  /\ maxClients (final (connect (Data (VNum (Num (-1)))) (Data (VNum (Num 5))) ready))
     = Num 2
  /\ maxClients (final (connect (Data (VNum (Num 3))) (Data (VNum (Num 5))) ready))
     = Num 4.
Proof.
  rewrite (connect_number_in_first_place (-1) (Data (VNum (Num 5))) ready
             {| clients := [host]; isConnected := false |} eq_refl
             (conj eq_refl eq_refl)).
  rewrite (connect_number_in_first_place 3 (Data (VNum (Num 5))) ready
             {| clients := [host]; isConnected := false |} eq_refl
             (conj eq_refl eq_refl)).
  repeat split.
Defined.

(** The crowded channel comes up with three entries and a limit of two:
    both clients are denied.  With a limit of three both are admitted. *)
Lemma onChannelConnect_announces_clients_witness :
  onChannelConnect_listening tizen_tv VUndefined crowded =
    {| result := Normal tt;
       final := set_forbiddenClients ["b"; "a"; "b"] crowded;
       trace := [ ChannelEmit "clientConnect" (mobile "a"); readyBroadcast;
                  accessDenied "a";
                  ChannelEmit "clientConnect" (mobile "b"); readyBroadcast;
                  accessDenied "b";
                  readyBroadcast ] |}
  /\ trace (onChannelConnect_listening tizen_tv VUndefined
              (set_maxClients (Num 3) crowded)) =
       [ ChannelEmit "clientConnect" (mobile "a"); readyBroadcast;
         ChannelEmit "clientConnect" (mobile "b"); readyBroadcast;
         readyBroadcast ].
Proof.
  split.
  - exact (onChannelConnect_announces_clients tizen_tv VUndefined crowded
             {| clients := [host; mobile "a"; mobile "b"]; isConnected := true |}
             eq_refl).
  - exact (proj1 (proj2
             (onChannelConnect_announces_clients tizen_tv VUndefined
                (set_maxClients (Num 3) crowded)
                {| clients := [host; mobile "a"; mobile "b"]; isConnected := true |}
                eq_refl))).
Defined.

(** Two connect handlers registered in turn; the second one answers 42. *)
Lemma connect_callback_last_registration_wins_witness :
  let s1 := final ((setCallback "connect" (Func 1) ;;
                    setCallback "connect" (Func 0) ;;
                    setCallback "disconnect" (Func 2))%js ready) in
  trace (onClientConnect tizen_tv_muted (mobile "a") s1) =
    [readyBroadcast; CallWithClient 0 (mobile "a")]
  /\ videoId (final (onClientConnect tizen_tv_muted (mobile "a") s1)) = VNum (Num 42).
Proof.
  destruct (connect_callback_last_registration_wins tizen_tv_muted (Func 1) (Func 0)
              (Func 2) 0 (mobile "a") ready {| clients := [host]; isConnected := false |}
              eq_refl eq_refl eq_refl) as [_ [T [V _]]].
  split; [exact T | exact V].
Defined.

(** A client leaves the crowded channel. *)
Lemma disconnect_callback_is_called_witness :
  trace (onClientDisconnect (mobile "a")
           (final (setCallback "disconnect" (Func 2) crowded))) =
    [CallWithClient 2 (mobile "a")].
Proof.
  destruct (disconnect_callback_is_called (Func 2) (mobile "a") crowded
              {| clients := [host; mobile "a"; mobile "b"]; isConnected := true |}
              eq_refl) as [_ [T _]].
  exact T.
Defined.

(** Client b, denied twice, connects once the channel has room: one
    occurrence of its id is left and its messages are still rejected. *)
Lemma admission_removes_one_occurrence_witness :
  let s := set_forbiddenClients ["b"; "b"]
             (set_channel (Some {| clients := [host; mobile "b"]; isConnected := true |})
                (initial tizen_tv)) in
  forbiddenClients (final (onClientConnect tizen_tv (mobile "b") s)) = ["b"]
  /\ ~ isClientAllowed (final (onClientConnect tizen_tv (mobile "b") s)) (mobile "b")
       = true.
Proof.
  cbv zeta.
  pose proof (admission_removes_one_occurrence tizen_tv (mobile "b")
                (set_forbiddenClients ["b"; "b"]
                   (set_channel
                      (Some {| clients := [host; mobile "b"]; isConnected := true |})
                      (initial tizen_tv)))
                {| clients := [host; mobile "b"]; isConnected := true |} eq_refl)
    as [_ H].
  cbv zeta in H. cbn [num_lt maxClients set_forbiddenClients set_channel initial]
    in H.
  split; [reflexivity|].
  destruct H as [_ H]. intros A. apply H in A. cbn in A. lia.
Defined.

(** [init("cast", element, callback)] on a freshly loaded module. *)
Lemma init_gives_up_or_resolves_witness :
  exists name bus cb,
    Data (VStr "cast") = Data (VStr name)
    /\ final (init tizen_tv (Data (VStr "cast")) (Element 7) (Func 1) (initial tizen_tv))
       = set_eventBus bus (initial tizen_tv)
    /\ trace (init tizen_tv (Data (VStr "cast")) (Element 7) (Func 1) (initial tizen_tv))
       = [MsfLocal name cb].
Proof.
  destruct (init_gives_up_or_resolves tizen_tv (Data (VStr "cast")) (Element 7)
              (Func 1) (initial tizen_tv)) as (_ & _ & _ & _ & _ & G & _).
  apply G. split; [reflexivity|]. split; [reflexivity|].
  exists "cast". split; [reflexivity | discriminate].
Defined.

(** Enter on a platform that reports it twice, and on one that does not. *)
Lemma tvKeys_platform_overrides_seed_witness :
  assoc "Enter" (tvKeys (initial tizen_tv_muted)) = Some (Num 29443)
  /\ assoc "Enter" (tvKeys (initial tizen_tv)) = Some (Num 13)
  /\ assoc "ArrowUp" (tvKeys (initial tizen_tv_muted)) = Some (Num 38).
Proof.
  rewrite !tvKeys_platform_overrides_seed. repeat split.
Defined.

(** A seek message of the denied client of the crowded channel. *)
Lemma dispatch_sends_only_403_to_sender_witness :
  result (dispatch tizen_tv (eventName EvSeek) (VStr seek_zero_text) (mobile "b") crowded)
    = Normal (VBool false)
  /\ ~ In (internalError "b")
          (trace (dispatch tizen_tv (eventName EvSeek) (VStr seek_zero_text)
                    (mobile "b") crowded)).
Proof.
  destruct (dispatch_sends_only_403_to_sender tizen_tv EvSeek (VStr seek_zero_text)
              (mobile "b") crowded) as (_ & N & R & _).
  split; [|exact N].
  apply (R _ eq_refl). intros [A|A]; discriminate A.
Defined.

(** A play message writes the current video and none of the rest. *)
Lemma step_writes_only_its_own_variables_witness :
  let s' := final (step tizen_tv (Message EvPlay (VObj [("videoId", VStr "v1")])
                                    (mobile "a")) ready) in
  videoId s' = VStr "v1"
  /\ maxClients s' = maxClients ready
  /\ channel s' = channel ready
  /\ eventBus s' = eventBus ready
  /\ clientCallbacks s' = clientCallbacks ready.
Proof.
  destruct (step_writes_only_its_own_variables tizen_tv
              (Message EvPlay (VObj [("videoId", VStr "v1")]) (mobile "a")) ready)
    as (_ & M & C & E & B & _).
  cbv zeta. split; [reflexivity|]. split; [apply M; discriminate|].
  split; [apply C; discriminate|]. split; [apply E; discriminate|].
  apply B; discriminate.
Defined.

(** [connect(-1)] on the crowded channel, then [connect(1)] and a connect
    event of the denied client, which is over the limit once more: its
    messages are admitted all the same. *)
Lemma allowingAllClients_is_never_reset_witness :
  let s1 := final (step tizen_tv (Connect (Data (VNum (Num (-1)))) (Data VUndefined))
                     crowded) in
  let s2 := run tizen_tv [ Connect (Data (VNum (Num 1))) (Data VUndefined);
                           ClientConnect (mobile "b") ] s1 in
  allowingAllClients s2 = true
  /\ forbiddenClients s2 = ["b"; "b"]
  /\ admitted s2 (mobile "b").
Proof.
  cbv zeta.
  destruct (allowingAllClients_is_never_reset tizen_tv
              [ Connect (Data (VNum (Num 1))) (Data VUndefined);
                ClientConnect (mobile "b") ]
              (final (step tizen_tv (Connect (Data (VNum (Num (-1)))) (Data VUndefined))
                        crowded))) as [H _].
  destruct (H eq_refl) as [G A]. split; [exact G|]. split; [reflexivity | apply A].
Defined.
